(** * RealtyPlus FAQ assistant: the intent-resolution pipeline of [main.py]

    A shallow embedding of [detect_language], [translate_response],
    [get_category_from_ai], [find_similar_categories],
    [get_category_display_name] and [handle_message], followed by the
    properties of the pipeline.

    Python [str] values are represented by their UTF-8 encoding (Rocq
    [string]s are byte strings).  UTF-8 is self-synchronising, so the
    substring test [a in b] on text coincides with the substring test on the
    encodings.  The string literals below are the literals of the source file,
    byte for byte. *)

From Stdlib Require Import ZArith String Ascii List DecimalString.
From stdpp Require Import gmap strings list sorting.

Local Open Scope string_scope.

(** ** Strings *)

(** [needle in text]. *)
Fixpoint str_contains (needle text : string) : bool :=
  String.prefix needle text ||
  match text with
  | EmptyString => false
  | String _ rest => str_contains needle rest
  end.

(** [sum(1 for w in words if w in text)]. *)
Definition count_present (words : list string) (text : string) : nat :=
  length (List.filter (fun w => str_contains w text) words).

Definition newline : string := String (ascii_of_nat 10) EmptyString.

(** [str(n)] for a natural number. *)
Definition str_of_nat (n : nat) : string :=
  NilEmpty.string_of_uint (Nat.to_uint n).

(** ** Builtins of the interpreter

    [str.lower], [str.upper] and [str.strip] follow the Unicode tables and
    [int] accepts any Unicode decimal digit; they are not part of the
    program.  The development is parametric in them; the only fact used is
    that lowering the empty string gives the empty string.  [py_int] returns
    [None] where [int(text)] raises [ValueError]. *)
Class PyBuiltins := {
  str_lower : string -> string;
  str_upper : string -> string;
  str_strip : string -> string;
  py_int : string -> option Z;
  str_lower_empty : str_lower "" = ""
}.

(** *** The builtins on ASCII text

    An executable instance that agrees with the interpreter on ASCII input. *)
Fixpoint map_string (f : ascii -> ascii) (s : string) : string :=
  match s with
  | EmptyString => EmptyString
  | String c rest => String (f c) (map_string f rest)
  end.

Definition ascii_lower_char (c : ascii) : ascii :=
  let n := nat_of_ascii c in
  if (65 <=? n)%nat && (n <=? 90)%nat then ascii_of_nat (n + 32) else c.

Definition ascii_upper_char (c : ascii) : ascii :=
  let n := nat_of_ascii c in
  if (97 <=? n)%nat && (n <=? 122)%nat then ascii_of_nat (n - 32) else c.

Definition ascii_is_space (c : ascii) : bool :=
  let n := nat_of_ascii c in
  ((9 <=? n)%nat && (n <=? 13)%nat) || ((28 <=? n)%nat && (n <=? 32)%nat).

Definition ascii_is_digit (c : ascii) : bool :=
  let n := nat_of_ascii c in (48 <=? n)%nat && (n <=? 57)%nat.

Fixpoint ascii_lstrip (s : string) : string :=
  match s with
  | EmptyString => EmptyString
  | String c rest => if ascii_is_space c then ascii_lstrip rest else s
  end.

Fixpoint ascii_rstrip (s : string) : string :=
  match s with
  | EmptyString => EmptyString
  | String c rest =>
      match ascii_rstrip rest with
      | EmptyString => if ascii_is_space c then EmptyString else String c EmptyString
      | rest' => String c rest'
      end
  end.

Definition ascii_strip (s : string) : string := ascii_rstrip (ascii_lstrip s).

(** Decimal digits, single underscores allowed between two digits. *)
Fixpoint ascii_digits (acc : Z) (after_digit : bool) (s : string) : option Z :=
  match s with
  | EmptyString => if after_digit then Some acc else None
  | String c rest =>
      if ascii_is_digit c then
        ascii_digits (10 * acc + Z.of_nat (nat_of_ascii c - 48)) true rest
      else if Ascii.eqb c "_" && after_digit then
        match rest with
        | String d _ => if ascii_is_digit d then ascii_digits acc false rest else None
        | EmptyString => None
        end
      else None
  end.

(** [int(text)]: surrounding whitespace, an optional sign, then the digits. *)
Definition ascii_int (text : string) : option Z :=
  match ascii_strip text with
  | String "+" rest => ascii_digits 0 false rest
  | String "-" rest => Z.opp <$> ascii_digits 0 false rest
  | body => ascii_digits 0 false body
  end.

Definition ascii_builtins : PyBuiltins := {|
  str_lower := map_string ascii_lower_char;
  str_upper := map_string ascii_upper_char;
  str_strip := ascii_strip;
  py_int := ascii_int;
  str_lower_empty := eq_refl
|}.

(** ** Language detection: the indicator lists of [detect_language] *)

Definition spanish_indicators : list string :=
  [
    "quÃ©"; "cÃ³mo"; "cuÃ¡ndo"; "dÃ³nde"; "por quÃ©"; "cuÃ¡l"; "cuÃ¡les";
    "puedo"; "necesito"; "quiero"; "ayuda"; "informaciÃ³n"; "paÃ­ses";
    "incluye"; "recibo"; "apoyo"; "empezar"; "contactar"; "hola"; "gracias";
    "favor"; "mÃ¡s"; "sÃ­"; "no"; "bueno"; "tambiÃ©n"; "esto"; "eso";
    "aquÃ­"; "allÃ­"; "ahora"; "despuÃ©s"
  ].

Definition english_indicators : list string :=
  [
    "what"; "how"; "when"; "where"; "why"; "which"; "who"; "can"; "need";
    "want"; "help"; "information"; "the"; "is"; "are"; "this"; "that";
    "here"; "there"; "now"; "later"
  ].

(** ** Similarity ranking: the keyword table of [find_similar_categories]

    A Python [dict] literal iterates in the order it is written; the
    association list keeps that order. *)

Definition keyword_map : list (string * list string) :=
  [
    ("WHAT_IS_REALTYPLUS",
      ["quÃ© es"; "what is"; "informaciÃ³n"; "empresa"; "company"; "realtyplus"]);
    ("COUNTRIES_OPERATING_IN",
      ["paÃ­ses"; "countries"; "dÃ³nde"; "where"; "ubicaciÃ³n"; "location"; "operan"]);
    ("FRANCHISE_INCLUSIONS",
      ["incluye"; "included"; "quÃ© recibo"; "what do i get"; "beneficios"; "benefits"]);
    ("FRANCHISE_VS_MASTER",
      ["diferencia"; "difference"; "master"; "franquicia vs"]);
    ("REAL_ESTATE_EXPERIENCE_REQ",
      ["experiencia"; "experience"; "necesito"; "requisitos"]);
    ("START_ALONE_OR_TEAM",
      ["solo"; "alone"; "equipo"; "team"]);
    ("ONBOARDING_LAUNCH_TIME",
      ["cuÃ¡nto tiempo"; "how long"; "tiempo"; "launch"; "empezar"]);
    ("SUPPORT_RECEIVED",
      ["apoyo"; "support"; "ayuda"; "help"]);
    ("OPERATE_INTERNATIONALLY",
      ["internacional"; "international"; "global"]);
    ("STEPS_TO_GET_STARTED",
      ["cÃ³mo empezar"; "how to start"; "pasos"; "steps"; "comenzar"]);
    ("AREA_EXCLUSIVITY",
      ["exclusividad"; "exclusivity"; "territorio"; "territory"]);
    ("MARKETING_ASSISTANCE",
      ["marketing"; "publicidad"; "advertising"]);
    ("RECRUITMENT_ASSISTANCE",
      ["reclutar"; "recruitment"; "contratar"; "hiring"]);
    ("TECHNOLOGY_TOOLS_OFFERED",
      ["tecnologÃ­a"; "technology"; "herramientas"; "tools"; "plataforma"]);
    ("CONTACT_EXPANSION_TEAM",
      ["contactar"; "contact"; "hablar"; "llamada"; "call"; "reuniÃ³n"]);
    ("WHERE_CAN_I_OPEN",
      ["dÃ³nde puedo"; "where can"; "abrir"; "open"]);
    ("WHY_CHOOSE_REALTYPLUS",
      ["por quÃ©"; "why"; "elegir"; "choose"; "ventajas"]);
    ("RECEIVE_DOCUMENTS_BROCHURE",
      ["documentos"; "documents"; "folleto"; "brochure"]);
    ("TIME_DEDICATION_REQUIRED",
      ["dedicaciÃ³n"; "dedication"; "tiempo dedicar"]);
    ("PHYSICAL_OFFICE_NEED",
      ["oficina"; "office"; "fÃ­sica"; "physical"]);
    ("TRAINING_FOR_TEAM",
      ["capacitaciÃ³n"; "training"; "entrenamiento"; "formaciÃ³n"]);
    ("EXPAND_TO_MULTIPLE_CITIES",
      ["expandir"; "expand"; "ciudades"; "cities"]);
    ("VISIT_HEADQUARTERS",
      ["visitar"; "visit"; "oficinas"; "headquarters"]);
    ("GROW_BEYOND_SALES",
      ["crecer"; "grow"; "mÃ¡s allÃ¡"; "beyond"]);
    ("MULTIPLE_LANGUAGES_REQ",
      ["idiomas"; "languages"]);
    ("MAIN_REQUIREMENTS_JOIN",
      ["requisitos"; "requirements"; "unirme"; "join"]);
    ("CONTACT_OTHER_FRANCHISEES",
      ["franquiciados"; "franchisees"; "testimonios"]);
    ("HOW_INTERNATIONAL_SYSTEM_WORKS",
      ["sistema"; "system"; "funciona"; "works"]);
    ("GROW_QUICKLY_POSSIBLE",
      ["rÃ¡pido"; "quickly"; "rÃ¡pidamente"])
  ].

(** ** Display names: the tables of [get_category_display_name] *)

Definition names_en : list (string * string) :=
  [
    ("WHAT_IS_REALTYPLUS",
      "What is RealtyPlus?");
    ("COUNTRIES_OPERATING_IN",
      "What countries do you operate in?");
    ("FRANCHISE_INCLUSIONS",
      "What does the franchise include?");
    ("FRANCHISE_VS_MASTER",
      "Difference between franchise and master franchise");
    ("REAL_ESTATE_EXPERIENCE_REQ",
      "Real estate experience required");
    ("START_ALONE_OR_TEAM",
      "Can I start alone or do I need a team?");
    ("ONBOARDING_LAUNCH_TIME",
      "Time to get started");
    ("SUPPORT_RECEIVED",
      "Support I will receive");
    ("OPERATE_INTERNATIONALLY",
      "International operations");
    ("STEPS_TO_GET_STARTED",
      "Steps to get started");
    ("AREA_EXCLUSIVITY",
      "Area exclusivity");
    ("MARKETING_ASSISTANCE",
      "Marketing assistance");
    ("RECRUITMENT_ASSISTANCE",
      "Recruitment assistance");
    ("TECHNOLOGY_TOOLS_OFFERED",
      "Technology tools offered");
    ("CONTACT_EXPANSION_TEAM",
      "Contact the expansion team");
    ("WHERE_CAN_I_OPEN",
      "Where can I open?");
    ("WHY_CHOOSE_REALTYPLUS",
      "Why choose RealtyPlus?");
    ("RECEIVE_DOCUMENTS_BROCHURE",
      "Receive documents/brochure");
    ("TIME_DEDICATION_REQUIRED",
      "Time dedication required");
    ("PHYSICAL_OFFICE_NEED",
      "Physical office requirement");
    ("TRAINING_FOR_TEAM",
      "Training for the team");
    ("EXPAND_TO_MULTIPLE_CITIES",
      "Expand to multiple cities");
    ("VISIT_HEADQUARTERS",
      "Visit headquarters");
    ("GROW_BEYOND_SALES",
      "Grow beyond sales");
    ("MULTIPLE_LANGUAGES_REQ",
      "Multiple languages requirement");
    ("MAIN_REQUIREMENTS_JOIN",
      "Main requirements to join");
    ("CONTACT_OTHER_FRANCHISEES",
      "Contact other franchisees");
    ("HOW_INTERNATIONAL_SYSTEM_WORKS",
      "How the international system works");
    ("GROW_QUICKLY_POSSIBLE",
      "Possibility of growing quickly")
  ].

Definition names_es : list (string * string) :=
  [
    ("WHAT_IS_REALTYPLUS",
      "Â¿QuÃ© es RealtyPlus?");
    ("COUNTRIES_OPERATING_IN",
      "Â¿En quÃ© paÃ­ses operan?");
    ("FRANCHISE_INCLUSIONS",
      "Â¿QuÃ© incluye la franquicia?");
    ("FRANCHISE_VS_MASTER",
      "Diferencia entre franquicia y master franquicia");
    ("REAL_ESTATE_EXPERIENCE_REQ",
      "Experiencia en bienes raÃ­ces requerida");
    ("START_ALONE_OR_TEAM",
      "Â¿Puedo empezar solo o necesito un equipo?");
    ("ONBOARDING_LAUNCH_TIME",
      "Tiempo para empezar");
    ("SUPPORT_RECEIVED",
      "Apoyo que recibirÃ©");
    ("OPERATE_INTERNATIONALLY",
      "Operaciones internacionales");
    ("STEPS_TO_GET_STARTED",
      "Pasos para comenzar");
    ("AREA_EXCLUSIVITY",
      "Exclusividad territorial");
    ("MARKETING_ASSISTANCE",
      "Ayuda de marketing");
    ("RECRUITMENT_ASSISTANCE",
      "Ayuda de reclutamiento");
    ("TECHNOLOGY_TOOLS_OFFERED",
      "Herramientas tecnolÃ³gicas ofrecidas");
    ("CONTACT_EXPANSION_TEAM",
      "Contactar al equipo de expansiÃ³n");
    ("WHERE_CAN_I_OPEN",
      "Â¿DÃ³nde puedo abrir?");
    ("WHY_CHOOSE_REALTYPLUS",
      "Â¿Por quÃ© elegir RealtyPlus?");
    ("RECEIVE_DOCUMENTS_BROCHURE",
      "Recibir documentos/folleto");
    ("TIME_DEDICATION_REQUIRED",
      "Tiempo de dedicaciÃ³n requerido");
    ("PHYSICAL_OFFICE_NEED",
      "Requisito de oficina fÃ­sica");
    ("TRAINING_FOR_TEAM",
      "CapacitaciÃ³n para el equipo");
    ("EXPAND_TO_MULTIPLE_CITIES",
      "Expandir a mÃºltiples ciudades");
    ("VISIT_HEADQUARTERS",
      "Visitar la sede");
    ("GROW_BEYOND_SALES",
      "Crecer mÃ¡s allÃ¡ de las ventas");
    ("MULTIPLE_LANGUAGES_REQ",
      "Requisito de mÃºltiples idiomas");
    ("MAIN_REQUIREMENTS_JOIN",
      "Requisitos principales para unirse");
    ("CONTACT_OTHER_FRANCHISEES",
      "Contactar a otros franquiciados");
    ("HOW_INTERNATIONAL_SYSTEM_WORKS",
      "CÃ³mo funciona el sistema internacional");
    ("GROW_QUICKLY_POSSIBLE",
      "Posibilidad de crecer rÃ¡pidamente")
  ].

(** [d.get(key, default)] on a dict literal. *)
Fixpoint dict_get (d : list (string * string)) (key default : string) : string :=
  match d with
  | [] => default
  | (k, v) :: rest => if String.eqb k key then v else dict_get rest key default
  end.

Definition get_category_display_name (category language : string) : string :=
  if String.eqb language "es" then dict_get names_es category category
  else dict_get names_en category category.

(** ** Sorting and slicing of the match list *)

(** [matches.sort(key=lambda x: x[1], reverse=True)]: [list.sort] is stable,
    and stays so under [reverse=True]: entries with equal scores keep their
    original relative order.  Insertion from the right realises exactly that:
    an entry moves past the later entries with a strictly larger score and
    stops in front of the first one whose score is not larger. *)
Fixpoint insert_by_score (x : string * nat) (l : list (string * nat))
  : list (string * nat) :=
  match l with
  | [] => [x]
  | y :: rest =>
      if (x.2 <? y.2)%nat then y :: insert_by_score x rest else x :: l
  end.

Definition sort_by_score_desc (l : list (string * nat)) : list (string * nat) :=
  foldr insert_by_score [] l.

(** [l[:stop]], with Python's reading of a negative bound. *)
Definition slice_to {A : Type} (l : list A) (stop : Z) : list A :=
  if (stop <? 0)%Z then take (length l - Z.to_nat (- stop)) l
  else take (Z.to_nat stop) l.

(** ** The external capability and the session *)

(** One turn's view of the Gemini model.  [classify_reply q] is the text of
    the reply to the classification prompt built for question [q], and
    [translate_reply t] the text of the reply to the translation prompt built
    for [t]; [None] stands for the call raising an exception.  The prompts
    themselves ([get_classification_prompt] and the template inside
    [translate_response]) only feed the model and are not embedded. *)
Record Gemini := {
  classify_reply : string -> option string;
  translate_reply : string -> option string
}.

(** [context.user_data]: the per-user dict, with the three keys the handler
    uses; [None] is an absent key. *)
Record user_data := {
  user_language : option string;
  awaiting_confirmation : option bool;
  suggested_categories : option (list string)
}.

(** The empty dict of a user who has not written yet. *)
Definition fresh_user_data : user_data :=
  {| user_language := None;
     awaiting_confirmation := None;
     suggested_categories := None |}.

Definition set_user_language (ud : user_data) (language : string) : user_data :=
  {| user_language := Some language;
     awaiting_confirmation := awaiting_confirmation ud;
     suggested_categories := suggested_categories ud |}.

Definition set_awaiting_confirmation (ud : user_data) (b : bool) : user_data :=
  {| user_language := user_language ud;
     awaiting_confirmation := Some b;
     suggested_categories := suggested_categories ud |}.

Definition set_suggested_categories (ud : user_data) (l : list string) : user_data :=
  {| user_language := user_language ud;
     awaiting_confirmation := awaiting_confirmation ud;
     suggested_categories := Some l |}.

(** [context.user_data.get('awaiting_confirmation')] used as a condition. *)
Definition awaiting (ud : user_data) : bool :=
  default false (awaiting_confirmation ud).

(** [context.user_data.get('suggested_categories', [])]. *)
Definition suggested (ud : user_data) : list string :=
  default [] (suggested_categories ud).

(** Truth value of [GEMINI_API_KEY]: [None] and the empty string are false. *)
Definition key_configured (key : option string) : bool :=
  match key with
  | Some (String _ _) => true
  | _ => false
  end.

(** ** Texts sent by [handle_message] *)

Definition follow_up (language : string) : string :=
  if String.eqb language "es"
  then newline +:+ "Â¿Tienes otra pregunta? PregÃºntame lo que quieras."
  else newline +:+ "Do you have another question? Feel free to ask me anything.".

Definition error_msg (language : string) : string :=
  if String.eqb language "es"
  then "Por favor selecciona un nÃºmero vÃ¡lido de la lista."
  else "Please select a valid number from the list.".

Definition default_response (language : string) : string :=
  if String.eqb language "es"
  then "Lo siento, no tengo una respuesta especÃ­fica para esa pregunta. Por favor contacta a nuestro equipo de expansiÃ³n para mÃ¡s informaciÃ³n, o intenta reformular tu pregunta."
  else "I'm sorry, I don't have a specific answer for that question. Please contact our expansion team for more information, or try rephrasing your question.".

Definition suggestion_header (language : string) : string :=
  if String.eqb language "es"
  then "No estoy seguro de haber entendido tu pregunta. Â¿Te refieres a alguna de estas opciones?" +:+ newline +:+ newline
  else "I'm not sure I understood your question. Did you mean one of these options?" +:+ newline +:+ newline.

Definition suggestion_footer (language : string) : string :=
  if String.eqb language "es"
  then newline +:+ "Escribe el nÃºmero de la opciÃ³n que te interesa, o reformula tu pregunta."
  else newline +:+ "Type the number of the option you're interested in, or rephrase your question.".

(** The loop [for idx, cat in enumerate(similar, idx)] appending
    ["{idx}. {display name}\n"] to the text. *)
Fixpoint suggestion_lines (idx : nat) (similar : list string) (language : string)
  : string :=
  match similar with
  | [] => ""
  | cat :: rest =>
      str_of_nat idx +:+ ". " +:+ get_category_display_name cat language
        +:+ newline +:+ suggestion_lines (S idx) rest language
  end.

Definition suggestion_text (similar : list string) (language : string) : string :=
  suggestion_header language +:+ suggestion_lines 1 similar language
    +:+ suggestion_footer language.

(** ** The classification prompt: [get_classification_prompt] *)

Definition category_examples : list (string * string) :=
  [
    ("WHAT_IS_REALTYPLUS",
      "quÃ© es RealtyPlus, what is RealtyPlus, informaciÃ³n sobre la empresa, company information");
    ("COUNTRIES_OPERATING_IN",
      "en quÃ© paÃ­ses operan, where do you operate, dÃ³nde estÃ¡n, countries");
    ("FRANCHISE_INCLUSIONS",
      "quÃ© incluye la franquicia, what is included, quÃ© recibo, what do I get");
    ("FRANCHISE_VS_MASTER",
      "diferencia entre franquicia y master, difference between franchise and master");
    ("REAL_ESTATE_EXPERIENCE_REQ",
      "necesito experiencia, do I need experience, requisitos de experiencia");
    ("START_ALONE_OR_TEAM",
      "puedo empezar solo, can I start alone, necesito equipo, do I need a team");
    ("ONBOARDING_LAUNCH_TIME",
      "cuÃ¡nto tiempo para empezar, how long to start, tiempo de lanzamiento");
    ("SUPPORT_RECEIVED",
      "quÃ© apoyo recibo, what support do I get, ayuda");
    ("OPERATE_INTERNATIONALLY",
      "puedo operar internacionalmente, can I work internationally, trabajo global");
    ("STEPS_TO_GET_STARTED",
      "cÃ³mo empezar, how to start, pasos para comenzar, steps to begin");
    ("AREA_EXCLUSIVITY",
      "exclusividad territorial, area exclusivity, territorio exclusivo");
    ("MARKETING_ASSISTANCE",
      "ayuda de marketing, marketing help, publicidad, advertising support");
    ("RECRUITMENT_ASSISTANCE",
      "ayuda para reclutar, recruitment help, contratar equipo");
    ("TECHNOLOGY_TOOLS_OFFERED",
      "herramientas tecnolÃ³gicas, technology tools, plataformas digitales");
    ("CONTACT_EXPANSION_TEAM",
      "contactar, contact, hablar con alguien, speak with someone, agendar llamada, schedule call");
    ("WHERE_CAN_I_OPEN",
      "dÃ³nde puedo abrir, where can I open, ubicaciones disponibles");
    ("WHY_CHOOSE_REALTYPLUS",
      "por quÃ© elegir RealtyPlus, why choose RealtyPlus, ventajas, benefits");
    ("RECEIVE_DOCUMENTS_BROCHURE",
      "recibir documentos, receive documents, folleto, brochure, informaciÃ³n");
    ("TIME_DEDICATION_REQUIRED",
      "cuÃ¡nto tiempo necesito dedicar, how much time required, dedicaciÃ³n");
    ("PHYSICAL_OFFICE_NEED",
      "necesito oficina fÃ­sica, do I need physical office, oficina");
    ("TRAINING_FOR_TEAM",
      "capacitaciÃ³n, training, entrenamiento, formaciÃ³n para el equipo");
    ("EXPAND_TO_MULTIPLE_CITIES",
      "expandir a mÃ¡s ciudades, expand to multiple cities, varias ubicaciones");
    ("VISIT_HEADQUARTERS",
      "visitar oficinas, visit headquarters, conocer la sede");
    ("GROW_BEYOND_SALES",
      "crecer mÃ¡s allÃ¡ de ventas, grow beyond sales, otros servicios");
    ("MULTIPLE_LANGUAGES_REQ",
      "necesito hablar idiomas, need multiple languages, requisitos de idioma");
    ("MAIN_REQUIREMENTS_JOIN",
      "requisitos principales, main requirements, quÃ© necesito para unirme");
    ("CONTACT_OTHER_FRANCHISEES",
      "contactar otros franquiciados, contact other franchisees, testimonios");
    ("HOW_INTERNATIONAL_SYSTEM_WORKS",
      "cÃ³mo funciona el sistema internacional, how international system works");
    ("GROW_QUICKLY_POSSIBLE",
      "puedo crecer rÃ¡pido, can I grow quickly, crecimiento rÃ¡pido")
  ].

(** [sep.join(parts)]. *)
Fixpoint str_join (sep : string) (parts : list string) : string :=
  match parts with
  | [] => ""
  | [part] => part
  | part :: rest => part +:+ sep +:+ str_join sep rest
  end.

(** One element of the list comprehension:
    [f"- {cat}: ({category_examples.get(cat, '')})"]. *)
Definition category_hint_line (cat : string) : string :=
  "- " +:+ cat +:+ ": (" +:+ dict_get category_examples cat "" +:+ ")".

(** The prompt text.  The function reads the global [CATEGORIES] in the
    order of the loaded dict; here that ordered list is the first argument. *)
Definition get_classification_prompt (categories : list string)
    (user_question : string) : string :=
  let categories_with_hints :=
    str_join newline (category_hint_line <$> categories) in
  newline
  +:+ "You are a question classifier for a franchise support system. " +:+ newline
  +:+ "Analyze the user's question (it may be in Spanish or English) and return ONLY the category keyword that best matches." +:+ newline
  +:+ newline
  +:+ "Strict Rules:" +:+ newline
  +:+ "1. Return ONLY ONE keyword from the list below" +:+ newline
  +:+ "2. Return it in UPPERCASE with no extra text or explanation" +:+ newline
  +:+ "3. If no category matches well, return 'OTHER'" +:+ newline
  +:+ newline
  +:+ "Categories with example keywords:" +:+ newline
  +:+ categories_with_hints +:+ newline
  +:+ newline
  +:+ "User Question: " +:+ user_question +:+ newline
  +:+ newline
  +:+ "Return only the category keyword:" +:+ newline.

(** The identifiers named by the rule list in the [except] branch of
    [get_category_from_ai]. *)
Definition fallback_identifiers : list string :=
  [ "WHAT_IS_REALTYPLUS"; "COUNTRIES_OPERATING_IN"; "FRANCHISE_INCLUSIONS";
    "STEPS_TO_GET_STARTED"; "CONTACT_EXPANSION_TEAM" ].

(** ** Sample data for the concrete runs *)

(** [RESPONSES] after the [FileNotFoundError] branch of the loader. *)
Definition no_catalog : gmap string string := ∅.

(** A [data.json] with a single entry. *)
Definition support_catalog : gmap string string :=
  {[ "SUPPORT_RECEIVED" := "We support you from day one." ]}.

(** A [data.json] with an entry for every key of [keyword_map]. *)
Definition full_catalog : gmap string string :=
  list_to_map ((fun entry => (entry.1, "Answer for " +:+ entry.1)) <$> keyword_map).

(** A model whose every call raises. *)
Definition failing_model : Gemini :=
  {| classify_reply := fun _ => None; translate_reply := fun _ => None |}.

(** A model whose classification call raises and whose translation call
    answers. *)
Definition translating_model : Gemini :=
  {| classify_reply := fun _ => None;
     translate_reply := fun _ => Some "Le apoyamos desde el primer dia." |}.

(** The session after the suggestion list for
    ["help with marketing tools"] has been shown. *)
Definition three_suggestions : user_data :=
  {| user_language := Some "en";
     awaiting_confirmation := Some true;
     suggested_categories :=
       Some [ "SUPPORT_RECEIVED"; "MARKETING_ASSISTANCE";
              "TECHNOLOGY_TOOLS_OFFERED" ] |}.

(** The same session after the user has answered ["1"]. *)
Definition after_selection : user_data :=
  {| user_language := Some "en";
     awaiting_confirmation := Some false;
     suggested_categories :=
       Some [ "SUPPORT_RECEIVED"; "MARKETING_ASSISTANCE";
              "TECHNOLOGY_TOOLS_OFFERED" ] |}.

Section Pipeline.
Context `{PyBuiltins}.

(** The module globals: [RESPONSES] is the parsed [data.json] (the empty dict
    when the file is missing) and [GEMINI_API_KEY] the environment variable. *)
Variable RESPONSES : gmap string string.
Variable GEMINI_API_KEY : option string.

(** [list(RESPONSES.keys())]; the program only tests membership in it. *)
Definition CATEGORIES : list string := (map_to_list RESPONSES).*1.

Definition detect_language (text : string) : string :=
  let text_lower := str_lower text in
  let spanish_count := count_present spanish_indicators text_lower in
  let english_count := count_present english_indicators text_lower in
  if (english_count <? spanish_count)%nat then "es"
  else if (0 <? english_count)%nat then "en"
  else "en".

Definition translate_response (ai : Gemini) (response_text target_language : string)
  : string :=
  if String.eqb target_language "en" then response_text
  else if negb (key_configured GEMINI_API_KEY) then response_text
  else
    match translate_reply ai response_text with
    | Some text => str_strip text
    | None => response_text
    end.

(** The [except] branch of [get_category_from_ai]. *)
Definition fallback_category (user_question : string) : string :=
  let user_question_lower := str_lower user_question in
  if str_contains "quÃ© es" user_question_lower
     || str_contains "what is" user_question_lower
  then "WHAT_IS_REALTYPLUS"
  else if str_contains "paÃ­ses" user_question_lower
     || str_contains "countries" user_question_lower
  then "COUNTRIES_OPERATING_IN"
  else if str_contains "incluye" user_question_lower
     || str_contains "included" user_question_lower
  then "FRANCHISE_INCLUSIONS"
  else if str_contains "empezar" user_question_lower
     || str_contains "started" user_question_lower
  then "STEPS_TO_GET_STARTED"
  else if str_contains "contactar" user_question_lower
     || str_contains "contact" user_question_lower
  then "CONTACT_EXPANSION_TEAM"
  else "OTHER".

Definition get_category_from_ai (ai : Gemini) (user_question : string) : string :=
  if negb (key_configured GEMINI_API_KEY) then "OTHER"
  else
    match classify_reply ai user_question with
    | Some text =>
        let classified_category := str_upper (str_strip text) in
        if bool_decide (classified_category ∈ CATEGORIES)
        then classified_category
        else "OTHER"
    | None => fallback_category user_question
    end.

(** The loop of [find_similar_categories] that collects the scored entries. *)
Definition scored_matches (user_question_lower : string) : list (string * nat) :=
  List.filter (fun m => (0 <? m.2)%nat)
    (map (fun entry => (entry.1, count_present entry.2 user_question_lower))
         keyword_map).

Definition find_similar_categories (user_question : string) (top_n : Z)
  : list string :=
  let user_question_lower := str_lower user_question in
  let matches := sort_by_score_desc (scored_matches user_question_lower) in
  (slice_to matches top_n).*1.

(** The part of [handle_message] after the selection block: classify, then
    answer, suggest or apologise. *)
Definition answer_question (ai : Gemini) (ud : user_data)
    (language user_text : string) : user_data * list string :=
  let ud := set_user_language ud language in
  let category := get_category_from_ai ai user_text in
  match RESPONSES !! category with
  | Some response_text =>
      (ud, [translate_response ai response_text language; follow_up language])
  | None =>
      let similar := find_similar_categories user_text 3 in
      match similar with
      | _ :: _ =>
          let ud := set_awaiting_confirmation ud true in
          let ud := set_suggested_categories ud similar in
          let ud := set_user_language ud language in
          (ud, [suggestion_text similar language])
      | [] => (ud, [default_response language])
      end
  end.

(** The language of the turn: the saved one, or the detected one on the
    first message (the block at the top of [handle_message]). *)
Definition session_language (ud : user_data) (user_text : string) : string :=
  match user_language ud with
  | Some language => language
  | None => detect_language user_text
  end.

(** The saved language is kept; a first message stores the detected one. *)
Definition remember_language (ud : user_data) (language : string) : user_data :=
  match user_language ud with
  | Some _ => ud
  | None => set_user_language ud language
  end.

(** [handle_message]: the dict after the turn and the texts passed to
    [reply_text], in order.  [suggested[choice - 1]] is read with [nth]; the
    test in front of it keeps the index inside the list. *)
Definition handle_message (ai : Gemini) (ud : user_data) (user_text : string)
  : user_data * list string :=
  let language := session_language ud user_text in
  let ud := remember_language ud language in
  if awaiting ud then
    match py_int user_text with
    | Some choice =>
        let suggested := suggested ud in
        if ((1 <=? choice) && (choice <=? Z.of_nat (length suggested)))%Z then
          let category := nth (Z.to_nat (choice - 1)) suggested "" in
          let ud := set_awaiting_confirmation ud false in
          match RESPONSES !! category with
          | Some response_text =>
              (ud, [translate_response ai response_text language;
                    follow_up language])
          | None => (ud, [])
          end
        else (ud, [error_msg language])
    | None =>
        answer_question ai (set_awaiting_confirmation ud false) language user_text
    end
  else answer_question ai ud language user_text.

(** ** Reachable sessions *)

(** The dicts a user's session can hold: the empty dict, and whatever
    [handle_message] leaves after a turn, for any message and any behaviour
    of the model during that turn. *)
Inductive reachable : user_data -> Prop :=
| reachable_fresh : reachable fresh_user_data
| reachable_turn ai ud user_text :
    reachable ud -> reachable (handle_message ai ud user_text).1.

(** A conversation: the turns of one user, handled in arrival order; each
    turn comes with the behaviour of the model during it. *)
Fixpoint conversation (ud : user_data) (turns : list (Gemini * string))
  : user_data :=
  match turns with
  | [] => ud
  | (ai, user_text) :: rest =>
      conversation (handle_message ai ud user_text).1 rest
  end.

(** ** Scores and positions used to state the ranking *)

(** The keyword list of a category in a table ([[]] for an unknown one). *)
Fixpoint keywords_of (table : list (string * list string)) (category : string)
  : list string :=
  match table with
  | [] => []
  | (k, kws) :: rest => if String.eqb k category then kws else keywords_of rest category
  end.

(** Number of keywords of [category] occurring in the lowered question. *)
Definition category_score (user_question category : string) : nat :=
  count_present (keywords_of keyword_map category) (str_lower user_question).

(** Position of a category in the iteration order of a table. *)
Fixpoint position_in (table : list (string * list string)) (category : string)
  : nat :=
  match table with
  | [] => 0
  | (k, _) :: rest => if String.eqb k category then 0 else S (position_in rest category)
  end.

(** [a] is ranked before [b]: a larger score, or the same score and an
    earlier place in [keyword_map]. *)
Definition ranked_before (user_question a b : string) : Prop :=
  (category_score user_question b < category_score user_question a)%nat
  \/ (category_score user_question a = category_score user_question b
      /\ (position_in keyword_map a < position_in keyword_map b)%nat).

(** Order on scored entries: a larger score first, and for equal scores the
    order [R] the entries had before sorting. *)
Definition score_then (R : relation (string * nat)) : relation (string * nat) :=
  fun x y => (y.2 < x.2)%nat \/ (x.2 = y.2 /\ R x y).

(** What the collecting loop guarantees for an entry: its category is a key
    of [keyword_map], its score is the keyword count of that category, and
    the score is positive. *)
Definition scored_entry (user_question_lower : string) (m : string * nat) : Prop :=
  m.1 ∈ keyword_map.*1
  /\ m.2 = count_present (keywords_of keyword_map m.1) user_question_lower
  /\ (0 < m.2)%nat.

Definition written_before (m1 m2 : string * nat) : Prop :=
  (position_in keyword_map m1.1 < position_in keyword_map m2.1)%nat.

(** ** Language detection *)

Lemma detect_language_cases (text : string) :
  detect_language text = "es" \/ detect_language text = "en".
Proof.
  unfold detect_language.
  generalize (count_present spanish_indicators (str_lower text)).
  generalize (count_present english_indicators (str_lower text)).
  intros english_count spanish_count.
  destruct (english_count <? spanish_count)%nat; [left; reflexivity|].
  right. destruct (0 <? english_count)%nat; reflexivity.
Qed.

(** C5. [detect_language] is a total function with exactly two possible
    results, ["es"] and ["en"]; it answers ["es"] exactly when more Spanish
    than English indicators occur in the lowered text, answers ["en"]
    otherwise, whether some English indicator occurs or none does, and
    answers ["en"] on the empty string. *)
Theorem detect_language_spec (text : string) :
  let spanish_count := count_present spanish_indicators (str_lower text) in
  let english_count := count_present english_indicators (str_lower text) in
  (detect_language text = "es" \/ detect_language text = "en")
  /\ ~ (detect_language text = "es" /\ detect_language text = "en")
  /\ (detect_language text = "es" <-> (english_count < spanish_count)%nat)
  /\ ((spanish_count <= english_count)%nat -> (0 < english_count)%nat ->
      detect_language text = "en")
  /\ ((spanish_count <= english_count)%nat -> english_count = 0%nat ->
      detect_language text = "en")
  /\ detect_language "" = "en".
Proof.
  intros spanish_count english_count.
  assert (Hes : detect_language text = "es" <-> (english_count < spanish_count)%nat).
  { unfold detect_language. fold spanish_count english_count.
    clearbody spanish_count english_count.
    destruct (Nat.ltb_spec english_count spanish_count) as [Hlt|Hge].
    - split; [intros _; exact Hlt|reflexivity].
    - split; [|lia]. destruct (0 <? english_count)%nat; discriminate. }
  assert (Hen : (spanish_count <= english_count)%nat -> detect_language text = "en").
  { intros Hle. destruct (detect_language_cases text) as [Hd|Hd]; [|exact Hd].
    apply Hes in Hd. lia. }
  clearbody spanish_count english_count.
  split; [apply detect_language_cases|].
  split; [intros [-> ?]; discriminate|].
  split; [exact Hes|].
  split; [intros Hle _; exact (Hen Hle)|].
  split; [intros Hle _; exact (Hen Hle)|].
  unfold detect_language. rewrite str_lower_empty. vm_compute. reflexivity.
Qed.

(** ** Translation *)

(** C7. [translate_response] returns the text unchanged for the target
    ["en"], and for the target ["es"] whenever the capability fails: no API
    key is configured, or the call raises. *)
Theorem translate_response_unchanged (ai : Gemini) (response_text language : string) :
  language = "en"
  \/ (language = "es"
      /\ (key_configured GEMINI_API_KEY = false
          \/ translate_reply ai response_text = None)) ->
  translate_response ai response_text language = response_text.
Proof.
  unfold translate_response.
  intros [->|[-> [Hkey|Hraise]]]; cbn.
  - done.
  - by rewrite Hkey.
  - rewrite Hraise. by destruct (negb _).
Qed.

(** ** Classification *)

Lemma CATEGORIES_spec (category : string) :
  category ∈ CATEGORIES <-> is_Some (RESPONSES !! category).
Proof.
  unfold CATEGORIES. rewrite list_elem_of_fmap. split.
  - intros [[k v] [-> Hin]]. apply elem_of_map_to_list in Hin. by exists v.
  - intros [v Hv]. exists (category, v). split; [done|].
    by apply elem_of_map_to_list.
Qed.

Lemma fallback_category_range (user_question : string) :
  fallback_category user_question ∈ fallback_identifiers
  \/ fallback_category user_question = "OTHER".
Proof.
  unfold fallback_category, fallback_identifiers.
  repeat (destruct (_ || _); [left; set_solver|]).
  by right.
Qed.

(** Without an API key the classifier answers ["OTHER"]; when the model
    replies, the answer is validated against [CATEGORIES]. *)
Lemma get_category_from_ai_validated (ai : Gemini) (user_question : string) :
  key_configured GEMINI_API_KEY = false
  \/ is_Some (classify_reply ai user_question) ->
  get_category_from_ai ai user_question ∈ CATEGORIES
  \/ get_category_from_ai ai user_question = "OTHER".
Proof.
  unfold get_category_from_ai. intros [Hkey|[text Htext]].
  - rewrite Hkey. by right.
  - destruct (negb _); [by right|]. rewrite Htext. cbn.
    case_bool_decide; [by left|by right].
Qed.

(** When every identifier of the rule list is in the catalog, so is every
    answer of the classifier, on both paths. *)
Lemma get_category_from_ai_complete_catalog (ai : Gemini) (user_question : string) :
  fallback_identifiers ⊆ CATEGORIES ->
  get_category_from_ai ai user_question ∈ CATEGORIES
  \/ get_category_from_ai ai user_question = "OTHER".
Proof.
  intros Hsub.
  destruct (key_configured GEMINI_API_KEY) eqn:Hkey;
    [|apply get_category_from_ai_validated; by left].
  destruct (classify_reply ai user_question) as [text|] eqn:Htext;
    [apply get_category_from_ai_validated; right; by rewrite Htext|].
  unfold get_category_from_ai. rewrite Hkey, Htext. cbn.
  destruct (fallback_category_range user_question) as [Hin|Hother];
    [left; by apply Hsub|by right].
Qed.

(** ** The turns of [handle_message], case by case *)

Lemma remember_language_awaiting (ud : user_data) (language : string) :
  awaiting_confirmation (remember_language ud language) = awaiting_confirmation ud.
Proof. unfold remember_language. by destruct (user_language ud). Qed.

Lemma remember_language_suggested (ud : user_data) (language : string) :
  suggested_categories (remember_language ud language) = suggested_categories ud.
Proof. unfold remember_language. by destruct (user_language ud). Qed.

Lemma session_language_set_awaiting (ud : user_data) (b : bool) (user_text : string) :
  session_language (set_awaiting_confirmation ud b) user_text
  = session_language ud user_text.
Proof. reflexivity. Qed.

Lemma remember_language_set_awaiting (ud : user_data) (b : bool) (language : string) :
  remember_language (set_awaiting_confirmation ud b) language
  = set_awaiting_confirmation (remember_language ud language) b.
Proof.
  destruct ud as [[saved|] flag stored]; reflexivity.
Qed.

Lemma in_range_test (choice : Z) (n : nat) :
  ((1 <=? choice) && (choice <=? Z.of_nat n))%Z = true
  <-> (1 <= choice <= Z.of_nat n)%Z.
Proof. rewrite andb_true_iff, !Z.leb_le. tauto. Qed.

Lemma nth_in_range (l : list string) (choice : Z) :
  (1 <= choice <= Z.of_nat (length l))%Z ->
  l !! Z.to_nat (choice - 1) = Some (nth (Z.to_nat (choice - 1)) l "").
Proof.
  intros Hrange.
  destruct (lookup_lt_is_Some_2 l (Z.to_nat (choice - 1))) as [x Hx]; [lia|].
  rewrite Hx. f_equal. symmetry. by apply nth_lookup_Some.
Qed.

(** A number inside the list: the flag is reset, the response (if there is
    one) and the follow-up are sent. *)
Lemma handle_message_in_range
    (ai : Gemini) (ud : user_data) (user_text : string) (k : Z) :
  awaiting ud = true ->
  py_int user_text = Some k ->
  (1 <= k <= Z.of_nat (length (suggested ud)))%Z ->
  let language := session_language ud user_text in
  handle_message ai ud user_text
  = (set_awaiting_confirmation (remember_language ud language) false,
     match RESPONSES !! nth (Z.to_nat (k - 1)) (suggested ud) "" with
     | Some response_text =>
         [ translate_response ai response_text language; follow_up language ]
     | None => []
     end).
Proof.
  intros Hwait Hint Hrange language.
  unfold handle_message, awaiting, suggested in *.
  rewrite remember_language_awaiting, Hwait, Hint, remember_language_suggested.
  apply in_range_test in Hrange. rewrite Hrange.
  by destruct (RESPONSES !! _).
Qed.

(** A number outside the list: only the error text is sent. *)
Lemma handle_message_out_of_range
    (ai : Gemini) (ud : user_data) (user_text : string) (k : Z) :
  awaiting ud = true ->
  py_int user_text = Some k ->
  (k < 1 \/ Z.of_nat (length (suggested ud)) < k)%Z ->
  let language := session_language ud user_text in
  handle_message ai ud user_text
  = (remember_language ud language, [ error_msg language ]).
Proof.
  intros Hwait Hint Hrange language.
  unfold handle_message, awaiting, suggested in *.
  rewrite remember_language_awaiting, Hwait, Hint, remember_language_suggested.
  destruct (_ && _)%Z eqn:Htest; [apply in_range_test in Htest; lia|done].
Qed.

(** Not a number: the flag is reset and the question is answered. *)
Lemma handle_message_rephrased
    (ai : Gemini) (ud : user_data) (user_text : string) :
  awaiting ud = true ->
  py_int user_text = None ->
  let language := session_language ud user_text in
  handle_message ai ud user_text
  = answer_question ai
      (set_awaiting_confirmation (remember_language ud language) false)
      language user_text.
Proof.
  intros Hwait Hint language.
  unfold handle_message, awaiting in *.
  by rewrite remember_language_awaiting, Hwait, Hint.
Qed.

(** No selection pending: the question is answered. *)
Lemma handle_message_idle
    (ai : Gemini) (ud : user_data) (user_text : string) :
  awaiting ud = false ->
  let language := session_language ud user_text in
  handle_message ai ud user_text
  = answer_question ai (remember_language ud language) language user_text.
Proof.
  intros Hwait language.
  unfold handle_message, awaiting in *.
  by rewrite remember_language_awaiting, Hwait.
Qed.

(** The three outcomes of the idle-state logic. *)
Lemma answer_question_outcome
    (ai : Gemini) (ud : user_data) (language user_text : string) :
  let turn := answer_question ai ud language user_text in
  match RESPONSES !! get_category_from_ai ai user_text with
  | Some response_text =>
      turn.2 = [ translate_response ai response_text language; follow_up language ]
      /\ awaiting_confirmation turn.1 = awaiting_confirmation ud
      /\ suggested_categories turn.1 = suggested_categories ud
  | None =>
      match find_similar_categories user_text 3 with
      | [] =>
          turn.2 = [ default_response language ]
          /\ awaiting_confirmation turn.1 = awaiting_confirmation ud
          /\ suggested_categories turn.1 = suggested_categories ud
      | similar =>
          turn.2 = [ suggestion_text similar language ]
          /\ awaiting_confirmation turn.1 = Some true
          /\ suggested_categories turn.1 = Some similar
      end
  end.
Proof.
  unfold answer_question.
  destruct (RESPONSES !! _); [done|].
  by destruct (find_similar_categories user_text 3).
Qed.

(** Answering a question never raises the flag over an empty list. *)
Lemma answer_question_flag_implies_list
    (ai : Gemini) (ud : user_data) (language user_text : string) :
  awaiting ud = false ->
  awaiting (answer_question ai ud language user_text).1 = true ->
  suggested (answer_question ai ud language user_text).1 <> [].
Proof.
  intros Hwait.
  pose proof (answer_question_outcome ai ud language user_text) as Hout.
  cbn zeta in Hout. unfold awaiting, suggested in *.
  destruct (RESPONSES !! _).
  - destruct Hout as (_ & -> & _). by rewrite Hwait.
  - destruct (find_similar_categories user_text 3).
    + destruct Hout as (_ & -> & _). by rewrite Hwait.
    + destruct Hout as (_ & _ & ->). done.
Qed.

(** ** The selection turn *)

(** C2, as the handler does it.  In a session that awaits a selection, a
    message that parses as [k] with [1 <= k <= N] resolves the category
    [suggested[k-1]], sets [awaiting_confirmation] to [False] (the session is
    idle again) and leaves [suggested_categories] as stored; when the category
    has an entry in [RESPONSES], its response, translated for the session
    language, and the follow-up are sent. *)
Theorem handle_message_valid_selection
    (ai : Gemini) (ud : user_data) (user_text : string) (k : Z) :
  awaiting ud = true ->
  py_int user_text = Some k ->
  (1 <= k <= Z.of_nat (length (suggested ud)))%Z ->
  exists category,
    suggested ud !! Z.to_nat (k - 1) = Some category
    /\ awaiting_confirmation (handle_message ai ud user_text).1 = Some false
    /\ awaiting (handle_message ai ud user_text).1 = false
    /\ suggested_categories (handle_message ai ud user_text).1
       = suggested_categories ud
    /\ forall response_text,
         RESPONSES !! category = Some response_text ->
         (handle_message ai ud user_text).2
         = [ translate_response ai response_text (session_language ud user_text);
             follow_up (session_language ud user_text) ].
Proof.
  intros Hwait Hint Hrange.
  exists (nth (Z.to_nat (k - 1)) (suggested ud) "").
  split; [by apply nth_in_range|].
  rewrite (handle_message_in_range ai ud user_text k Hwait Hint Hrange). cbn.
  repeat split; [apply remember_language_suggested|].
  by intros response_text ->.
Qed.

(** C10. If the selected category has no entry in [RESPONSES], the turn sets
    [awaiting_confirmation] to [False] and sends nothing. *)
Theorem handle_message_selection_without_response
    (ai : Gemini) (ud : user_data) (user_text : string) (k : Z) :
  awaiting ud = true ->
  py_int user_text = Some k ->
  (1 <= k <= Z.of_nat (length (suggested ud)))%Z ->
  RESPONSES !! nth (Z.to_nat (k - 1)) (suggested ud) "" = None ->
  awaiting_confirmation (handle_message ai ud user_text).1 = Some false
  /\ (handle_message ai ud user_text).2 = [].
Proof.
  intros Hwait Hint Hrange Hnone.
  rewrite (handle_message_in_range ai ud user_text k Hwait Hint Hrange).
  by rewrite Hnone.
Qed.

(** C8. In a session that awaits a selection, a message that parses as an
    integer outside [1..N] sends the invalid-selection text in the session
    language and leaves both [awaiting_confirmation] and
    [suggested_categories] as they were, so the session still awaits a
    selection. *)
Theorem handle_message_invalid_selection
    (ai : Gemini) (ud : user_data) (user_text : string) (k : Z) :
  awaiting ud = true ->
  py_int user_text = Some k ->
  (k < 1 \/ Z.of_nat (length (suggested ud)) < k)%Z ->
  (handle_message ai ud user_text).2
  = [ error_msg (session_language ud user_text) ]
  /\ awaiting (handle_message ai ud user_text).1 = true
  /\ awaiting_confirmation (handle_message ai ud user_text).1
     = awaiting_confirmation ud
  /\ suggested_categories (handle_message ai ud user_text).1
     = suggested_categories ud.
Proof.
  intros Hwait Hint Hrange.
  rewrite (handle_message_out_of_range ai ud user_text k Hwait Hint Hrange). cbn.
  unfold awaiting in *.
  by rewrite remember_language_awaiting, remember_language_suggested.
Qed.

(** C9. In a session that awaits a selection, a message that does not parse
    as an integer is handled exactly as the same message in the idle session
    obtained by setting [awaiting_confirmation] to [False]: it is classified,
    and the turn sends the response with the follow-up, or stores and sends a
    suggestion list, or sends the default text. *)
Theorem handle_message_not_a_number
    (ai : Gemini) (ud : user_data) (user_text : string) :
  awaiting ud = true ->
  py_int user_text = None ->
  let idle := set_awaiting_confirmation ud false in
  let language := session_language ud user_text in
  let turn := handle_message ai ud user_text in
  awaiting idle = false
  /\ turn = handle_message ai idle user_text
  /\ match RESPONSES !! get_category_from_ai ai user_text with
     | Some response_text =>
         turn.2 = [ translate_response ai response_text language;
                    follow_up language ]
         /\ awaiting turn.1 = false
     | None =>
         match find_similar_categories user_text 3 with
         | [] => turn.2 = [ default_response language ] /\ awaiting turn.1 = false
         | similar =>
             turn.2 = [ suggestion_text similar language ]
             /\ awaiting turn.1 = true
             /\ suggested turn.1 = similar
         end
     end.
Proof.
  intros Hwait Hint idle language turn.
  split; [done|].
  assert (Hturn : turn = answer_question ai
            (set_awaiting_confirmation (remember_language ud language) false)
            language user_text)
    by (by apply handle_message_rephrased).
  split.
  - rewrite Hturn.
    rewrite (handle_message_idle ai idle user_text) by reflexivity.
    unfold idle.
    rewrite session_language_set_awaiting, remember_language_set_awaiting.
    reflexivity.
  - rewrite Hturn.
    pose proof (answer_question_outcome ai
      (set_awaiting_confirmation (remember_language ud language) false)
      language user_text) as Hout.
    cbn zeta in Hout. unfold awaiting, suggested.
    destruct (RESPONSES !! _).
    + destruct Hout as (-> & -> & _). done.
    + destruct (find_similar_categories user_text 3).
      * destruct Hout as (-> & -> & _). done.
      * destruct Hout as (-> & -> & ->). done.
Qed.

(** ** The session invariant *)

Lemma handle_message_flag_implies_list
    (ai : Gemini) (ud : user_data) (user_text : string) :
  (awaiting ud = true -> suggested ud <> []) ->
  awaiting (handle_message ai ud user_text).1 = true ->
  suggested (handle_message ai ud user_text).1 <> [].
Proof.
  intros Hinv.
  destruct (awaiting ud) eqn:Hwait.
  - destruct (py_int user_text) as [k|] eqn:Hint.
    + destruct (decide (1 <= k <= Z.of_nat (length (suggested ud)))%Z) as [Hin|Hout].
      * by rewrite (handle_message_in_range ai ud user_text k Hwait Hint Hin).
      * rewrite (handle_message_out_of_range ai ud user_text k Hwait Hint)
          by lia.
        cbn. unfold suggested in *.
        rewrite remember_language_suggested. intros _. by apply Hinv.
    + rewrite (handle_message_rephrased ai ud user_text Hwait Hint).
      by apply answer_question_flag_implies_list.
  - rewrite (handle_message_idle ai ud user_text Hwait).
    apply answer_question_flag_implies_list.
    unfold awaiting in *. by rewrite remember_language_awaiting.
Qed.

(** C3, as the handler keeps it.  In every session reachable from the empty
    dict, a true [awaiting_confirmation] comes with a non-empty
    [suggested_categories]. *)
Theorem reachable_flag_implies_list (ud : user_data) :
  reachable ud ->
  awaiting ud = true ->
  suggested ud <> [].
Proof.
  induction 1 as [|ai ud user_text _ IH]; [done|].
  by apply handle_message_flag_implies_list.
Qed.

(** ** Ranking *)

(** *** The sort keeps the entries and is stable *)

Lemma insert_by_score_perm (x : string * nat) (l : list (string * nat)) :
  insert_by_score x l ≡ₚ x :: l.
Proof.
  induction l as [|y l IH]; simpl; [reflexivity|].
  destruct (x.2 <? y.2)%nat; [|reflexivity].
  rewrite IH. apply Permutation_swap.
Qed.

Lemma sort_by_score_desc_perm (l : list (string * nat)) :
  sort_by_score_desc l ≡ₚ l.
Proof.
  induction l as [|x l IH]; simpl; [reflexivity|].
  rewrite insert_by_score_perm. by rewrite IH.
Qed.

Lemma score_then_le (R : relation (string * nat)) (x y : string * nat) :
  score_then R x y -> (y.2 <= x.2)%nat.
Proof. unfold score_then. lia. Qed.

Lemma insert_by_score_sorted (R : relation (string * nat))
    (x : string * nat) (l : list (string * nat)) :
  StronglySorted (score_then R) l ->
  Forall (R x) l ->
  StronglySorted (score_then R) (insert_by_score x l).
Proof.
  induction 1 as [|y l Hsorted IH Hy]; intros Hx; simpl.
  - repeat constructor.
  - apply Forall_cons in Hx as [Hxy Hxl].
    destruct (Nat.ltb_spec x.2 y.2) as [Hlt|Hge].
    + constructor; [by apply IH|].
      rewrite insert_by_score_perm. constructor; [by left|done].
    + constructor; [by constructor|].
      constructor.
      * unfold score_then.
        destruct (decide (y.2 = x.2)) as [Heq|Hne]; [right|left]; [done|lia].
      * rewrite Forall_forall in *. intros z Hz.
        pose proof (score_then_le R y z (Hy z Hz)) as Hle.
        unfold score_then.
        destruct (decide (z.2 = x.2)) as [Heq|Hne]; [right|left]; [|lia].
        split; [done|]. by apply Hxl.
Qed.

Lemma sort_by_score_desc_sorted (R : relation (string * nat))
    (l : list (string * nat)) :
  StronglySorted R l ->
  StronglySorted (score_then R) (sort_by_score_desc l).
Proof.
  induction 1 as [|x l Hsorted IH Hx]; simpl; [constructor|].
  apply insert_by_score_sorted; [done|].
  by rewrite sort_by_score_desc_perm.
Qed.

Lemma StronglySorted_take {A : Type} (R : relation A) (n : nat) (l : list A) :
  StronglySorted R l -> StronglySorted R (take n l).
Proof.
  intros Hsorted. revert n.
  induction Hsorted as [|x l Hsorted IH Hx]; intros [|n]; simpl; try constructor.
  - apply IH.
  - by apply Forall_take.
Qed.

Lemma StronglySorted_filter_bool {A : Type} (R : relation A)
    (f : A -> bool) (l : list A) :
  StronglySorted R l -> StronglySorted R (List.filter f l).
Proof.
  induction 1 as [|x l Hsorted IH Hx]; simpl; [constructor|].
  destruct (f x); [|done].
  constructor; [done|].
  rewrite Forall_forall in *. intros y Hy.
  apply Hx. apply list_elem_of_In in Hy. apply filter_In in Hy as [Hy _].
  by apply list_elem_of_In.
Qed.

Lemma StronglySorted_fmap_on {A B : Type} (R1 : relation A) (R2 : relation B)
    (P : A -> Prop) (f : A -> B) (l : list A) :
  (forall x y, P x -> P y -> R1 x y -> R2 (f x) (f y)) ->
  Forall P l ->
  StronglySorted R1 l ->
  StronglySorted R2 (f <$> l).
Proof.
  intros Hf HP Hsorted.
  induction Hsorted as [|x l Hsorted IH Hx]; simpl; [constructor|].
  apply Forall_cons in HP as [HPx HPl].
  constructor; [by apply IH|].
  rewrite Forall_fmap.
  rewrite Forall_forall in *. intros y Hy. cbn.
  apply Hf; [done|by apply HPl|by apply Hx].
Qed.

Lemma Forall_slice_to {A : Type} (P : A -> Prop) (l : list A) (stop : Z) :
  Forall P l -> Forall P (slice_to l stop).
Proof. unfold slice_to. destruct (stop <? 0)%Z; apply Forall_take. Qed.

Lemma StronglySorted_slice_to {A : Type} (R : relation A) (l : list A) (stop : Z) :
  StronglySorted R l -> StronglySorted R (slice_to l stop).
Proof. unfold slice_to. destruct (stop <? 0)%Z; apply StronglySorted_take. Qed.

Lemma length_slice_to {A : Type} (l : list A) (stop : Z) :
  (0 <= stop)%Z -> (Z.of_nat (length (slice_to l stop)) <= stop)%Z.
Proof.
  intros Hstop. unfold slice_to.
  destruct (Z.ltb_spec stop 0); [lia|].
  rewrite length_take. lia.
Qed.

(** *** The keyword table *)

(** Every key of [keyword_map] is written once, so looking a key up gives
    the keywords written next to it, and the positions follow the order of
    writing. *)
Lemma keyword_map_lookup :
  Forall (fun entry => keywords_of keyword_map entry.1 = entry.2) keyword_map.
Proof. compute_done. Qed.

Lemma keyword_map_positions :
  StronglySorted
    (fun e1 e2 => (position_in keyword_map e1.1 < position_in keyword_map e2.1)%nat)
    keyword_map.
Proof. compute_done. Qed.

(** *** The scored entries *)

Lemma scored_matches_entries (user_question_lower : string) :
  Forall (scored_entry user_question_lower) (scored_matches user_question_lower).
Proof.
  unfold scored_matches. rewrite Forall_forall. intros m Hm.
  apply list_elem_of_In, filter_In in Hm as [Hm Hpos].
  apply in_map_iff in Hm as (entry & <- & Hentry).
  apply list_elem_of_In in Hentry.
  pose proof keyword_map_lookup as Hlookup.
  rewrite Forall_forall in Hlookup. specialize (Hlookup entry Hentry).
  split; [exact (list_elem_of_fmap_2 fst keyword_map entry Hentry)|].
  split; [|by apply Nat.ltb_lt in Hpos].
  change (count_present entry.2 user_question_lower
          = count_present (keywords_of keyword_map entry.1) user_question_lower).
  by rewrite Hlookup.
Qed.

Lemma scored_matches_in_order (user_question_lower : string) :
  StronglySorted written_before (scored_matches user_question_lower).
Proof.
  unfold scored_matches.
  apply StronglySorted_filter_bool.
  apply (StronglySorted_fmap_on
           (fun e1 e2 => (position_in keyword_map e1.1
                          < position_in keyword_map e2.1)%nat)
           written_before (fun _ => True)).
  - by intros e1 e2 _ _ Hlt.
  - by apply Forall_true.
  - apply keyword_map_positions.
Qed.

(** The list just before the final projection to category names. *)
Lemma ranked_matches_spec (user_question_lower : string) (top_n : Z) :
  let ranked :=
    slice_to (sort_by_score_desc (scored_matches user_question_lower)) top_n in
  Forall (scored_entry user_question_lower) ranked
  /\ StronglySorted (score_then written_before) ranked.
Proof.
  split.
  - apply Forall_slice_to. rewrite sort_by_score_desc_perm.
    apply scored_matches_entries.
  - apply StronglySorted_slice_to, sort_by_score_desc_sorted,
      scored_matches_in_order.
Qed.

(** C6. For [top_n >= 0] the list returned by [find_similar_categories]
    holds only categories whose keyword score is at least 1, is in
    non-increasing order of score, keeps categories of equal score in the
    order in which [keyword_map] lists them, and has at most [top_n]
    elements. *)
Theorem find_similar_categories_ranking (user_question : string) (top_n : Z) :
  (0 <= top_n)%Z ->
  let result := find_similar_categories user_question top_n in
  Forall (fun c => (1 <= category_score user_question c)%nat) result
  /\ StronglySorted
       (fun a b => (category_score user_question b
                    <= category_score user_question a)%nat) result
  /\ StronglySorted (ranked_before user_question) result
  /\ (Z.of_nat (length result) <= top_n)%Z.
Proof.
  intros Htop result.
  destruct (ranked_matches_spec (str_lower user_question) top_n)
    as [Hentries Hsorted].
  unfold result, find_similar_categories. cbn zeta.
  assert (Hranked : StronglySorted (ranked_before user_question)
    (slice_to (sort_by_score_desc (scored_matches (str_lower user_question)))
       top_n).*1).
  { apply (StronglySorted_fmap_on (score_then written_before)
             (ranked_before user_question)
             (scored_entry (str_lower user_question))); [|done..].
    intros m1 m2 (_ & Hs1 & _) (_ & Hs2 & _).
    unfold score_then, written_before, ranked_before, category_score.
    rewrite <- Hs1, <- Hs2. tauto. }
  repeat split.
  - rewrite Forall_fmap. eapply Forall_impl; [exact Hentries|].
    intros m (_ & Hs & Hpos).
    change (1 <= count_present (keywords_of keyword_map m.1)
                   (str_lower user_question))%nat.
    rewrite <- Hs. lia.
  - eapply (StronglySorted_fmap_on (ranked_before user_question) _
             (fun _ => True) id) in Hranked.
    + by rewrite list_fmap_id in Hranked.
    + intros a b _ _. unfold ranked_before, id. lia.
    + by apply Forall_true.
  - exact Hranked.
  - rewrite length_fmap. by apply length_slice_to.
Qed.

(** C1, as the ranker does it.  Every identifier returned by
    [find_similar_categories] is a key of the ranker's own table
    [keyword_map]; it is a member of the loaded catalog whenever the catalog
    has every key of that table. *)
Theorem find_similar_categories_in_keyword_map
    (user_question : string) (top_n : Z) (category : string) :
  category ∈ find_similar_categories user_question top_n ->
  category ∈ keyword_map.*1
  /\ (keyword_map.*1 ⊆ CATEGORIES -> category ∈ CATEGORIES).
Proof.
  intros Hin.
  assert (Hkey : category ∈ keyword_map.*1).
  { destruct (ranked_matches_spec (str_lower user_question) top_n)
      as [Hentries _].
    unfold find_similar_categories in Hin. cbn zeta in Hin.
    apply list_elem_of_fmap in Hin as (m & -> & Hm).
    rewrite Forall_forall in Hentries.
    by destruct (Hentries m Hm) as (Hkey & _). }
  split; [done|]. intros Hsub. by apply Hsub.
Qed.

(** ** Further properties of the session *)

(** The four ways a turn can go. *)
Lemma handle_message_cases (ai : Gemini) (ud : user_data) (user_text : string) :
  let language := session_language ud user_text in
  let saved := remember_language ud language in
  (awaiting ud = true
   /\ exists k, py_int user_text = Some k
      /\ (1 <= k <= Z.of_nat (length (suggested ud)))%Z
      /\ handle_message ai ud user_text
         = (set_awaiting_confirmation saved false,
            match RESPONSES !! nth (Z.to_nat (k - 1)) (suggested ud) "" with
            | Some response_text =>
                [ translate_response ai response_text language;
                  follow_up language ]
            | None => []
            end))
  \/ (awaiting ud = true
      /\ exists k, py_int user_text = Some k
         /\ (k < 1 \/ Z.of_nat (length (suggested ud)) < k)%Z
         /\ handle_message ai ud user_text = (saved, [ error_msg language ]))
  \/ (awaiting ud = true
      /\ py_int user_text = None
      /\ handle_message ai ud user_text
         = answer_question ai (set_awaiting_confirmation saved false)
             language user_text)
  \/ (awaiting ud = false
      /\ handle_message ai ud user_text
         = answer_question ai saved language user_text).
Proof.
  intros language saved.
  destruct (awaiting ud) eqn:Hwait.
  - destruct (py_int user_text) as [k|] eqn:Hint.
    + destruct (decide (1 <= k <= Z.of_nat (length (suggested ud)))%Z)
        as [Hin|Hout].
      * left. split; [reflexivity|]. exists k.
        split; [reflexivity|]. split; [exact Hin|].
        by apply handle_message_in_range.
      * right; left. split; [reflexivity|]. exists k.
        split; [reflexivity|]. split; [lia|].
        apply handle_message_out_of_range with (k := k); [done..|lia].
    + right; right; left. split; [reflexivity|]. split; [reflexivity|].
      by apply handle_message_rephrased.
  - right; right; right. split; [reflexivity|].
    by apply handle_message_idle.
Qed.

Lemma remember_language_language (ud : user_data) (user_text : string) :
  user_language (remember_language ud (session_language ud user_text))
  = Some (session_language ud user_text).
Proof. destruct ud as [[saved|] flag stored]; reflexivity. Qed.

Lemma remember_language_saved (ud : user_data) (language : string) :
  is_Some (user_language ud) -> remember_language ud language = ud.
Proof. intros [saved Hsaved]. unfold remember_language. by rewrite Hsaved. Qed.

Lemma answer_question_language
    (ai : Gemini) (ud : user_data) (language user_text : string) :
  user_language (answer_question ai ud language user_text).1 = Some language.
Proof.
  unfold answer_question.
  destruct (RESPONSES !! _); [reflexivity|].
  destruct (find_similar_categories user_text 3); reflexivity.
Qed.

Lemma answer_question_replies
    (ai : Gemini) (ud : user_data) (language user_text : string) :
  (answer_question ai ud language user_text).2 <> [].
Proof.
  unfold answer_question.
  destruct (RESPONSES !! _); [discriminate|].
  destruct (find_similar_categories user_text 3); discriminate.
Qed.

Lemma handle_message_language (ai : Gemini) (ud : user_data) (user_text : string) :
  user_language (handle_message ai ud user_text).1
  = Some (session_language ud user_text).
Proof.
  destruct (handle_message_cases ai ud user_text)
    as [(_ & k & _ & _ & ->)|[(_ & k & _ & _ & ->)|[(_ & _ & ->)|(_ & ->)]]].
  - apply remember_language_language.
  - apply remember_language_language.
  - apply answer_question_language.
  - apply answer_question_language.
Qed.

Lemma session_language_saved (ud : user_data) (language user_text : string) :
  user_language ud = Some language -> session_language ud user_text = language.
Proof. unfold session_language. by intros ->. Qed.

Lemma conversation_saved_language
    (ud : user_data) (language : string) (turns : list (Gemini * string)) :
  user_language ud = Some language ->
  user_language (conversation ud turns) = Some language.
Proof.
  revert ud. induction turns as [|[ai user_text] rest IH]; intros ud Hsaved.
  - exact Hsaved.
  - simpl. apply IH. rewrite handle_message_language.
    f_equal. by apply session_language_saved.
Qed.

(** X1. The language of a conversation is settled by its first turn: after
    any number of further turns the stored language is the one saved before
    the conversation, or, if none was saved, the one detected on the first
    message; later messages in another language do not change it. *)
Theorem conversation_language
    (ud : user_data) (ai : Gemini) (user_text : string)
    (rest : list (Gemini * string)) :
  user_language (conversation ud ((ai, user_text) :: rest))
  = Some (session_language ud user_text).
Proof.
  simpl. apply conversation_saved_language, handle_message_language.
Qed.

Lemma conversation_app (ud : user_data) (turns1 turns2 : list (Gemini * string)) :
  conversation ud (turns1 ++ turns2)%list
  = conversation (conversation ud turns1) turns2.
Proof.
  revert ud. induction turns1 as [|[ai user_text] rest IH]; intros ud; simpl;
    [reflexivity|apply IH].
Qed.

Lemma reachable_conversation (ud : user_data) :
  reachable ud <-> exists turns, ud = conversation fresh_user_data turns.
Proof.
  split.
  - induction 1 as [|ai ud user_text _ [turns ->]].
    + by exists [].
    + exists (turns ++ [(ai, user_text)])%list.
      by rewrite conversation_app.
  - intros [turns ->].
    assert (Hgen : forall start, reachable start ->
                     reachable (conversation start turns)).
    { induction turns as [|[ai text] rest IH]; intros start Hstart; simpl.
      - exact Hstart.
      - apply IH. by apply reachable_turn. }
    apply Hgen, reachable_fresh.
Qed.

Lemma reachable_language_cases (ud : user_data) :
  reachable ud ->
  ud = fresh_user_data
  \/ user_language ud = Some "es" \/ user_language ud = Some "en".
Proof.
  induction 1 as [|ai ud user_text _ IH]; [by left|].
  right. rewrite handle_message_language.
  destruct IH as [->|[Hes|Hen]].
  - change (session_language fresh_user_data user_text)
      with (detect_language user_text).
    destruct (detect_language_cases user_text) as [->| ->]; [by left|by right].
  - left. f_equal. by apply session_language_saved.
  - right. f_equal. by apply session_language_saved.
Qed.

(** X2. No session reachable from the empty dict stores a language other
    than ["es"] or ["en"], and only the empty dict stores none. *)
Theorem reachable_language (ud : user_data) :
  reachable ud ->
  (user_language ud = None /\ ud = fresh_user_data)
  \/ user_language ud = Some "es"
  \/ user_language ud = Some "en".
Proof.
  intros Hreach.
  destruct (reachable_language_cases ud Hreach) as [->|Hlang];
    [by left|by right].
Qed.

(** The only turn without a reply: a valid number whose category has no
    entry in [RESPONSES]. *)
Lemma handle_message_silent (ai : Gemini) (ud : user_data) (user_text : string) :
  (handle_message ai ud user_text).2 = [] ->
  awaiting ud = true
  /\ exists k, py_int user_text = Some k
     /\ (1 <= k <= Z.of_nat (length (suggested ud)))%Z
     /\ RESPONSES !! nth (Z.to_nat (k - 1)) (suggested ud) "" = None.
Proof.
  destruct (handle_message_cases ai ud user_text)
    as [(Hwait & k & Hint & Hrange & ->)|[(_ & k & _ & _ & ->)
       |[(_ & _ & ->)|(_ & ->)]]].
  - intros Hnil. split; [exact Hwait|]. exists k.
    split; [exact Hint|]. split; [exact Hrange|].
    simpl in Hnil. by destruct (RESPONSES !! _).
  - discriminate.
  - intros Hnil. by apply answer_question_replies in Hnil.
  - intros Hnil. by apply answer_question_replies in Hnil.
Qed.

(** X3. A turn sends no reply at all exactly when the session awaits a
    selection, the message parses as a number inside the stored list and the
    selected category has no entry in [RESPONSES]; every other turn sends at
    least one text. *)
Theorem handle_message_silent_iff
    (ai : Gemini) (ud : user_data) (user_text : string) :
  (handle_message ai ud user_text).2 = []
  <-> awaiting ud = true
      /\ exists k, py_int user_text = Some k
         /\ (1 <= k <= Z.of_nat (length (suggested ud)))%Z
         /\ RESPONSES !! nth (Z.to_nat (k - 1)) (suggested ud) "" = None.
Proof.
  split; [apply handle_message_silent|].
  intros (Hwait & k & Hint & Hrange & Hnone).
  rewrite (handle_message_in_range ai ud user_text k Hwait Hint Hrange).
  simpl. by rewrite Hnone.
Qed.

(** ** Further properties of the ranking *)

Lemma keyword_map_NoDup : NoDup keyword_map.*1.
Proof. compute_done. Qed.

Lemma keyword_map_length : length keyword_map = 29%nat.
Proof. reflexivity. Qed.

Lemma scored_matches_categories (user_question_lower : string) :
  (scored_matches user_question_lower).*1 `sublist_of` keyword_map.*1.
Proof.
  unfold scored_matches. generalize keyword_map.
  induction l as [|entry table IH]; simpl; [constructor|].
  destruct (0 <? _)%nat; simpl; [by apply sublist_skip|by apply sublist_cons].
Qed.

Lemma scored_matches_length (user_question_lower : string) :
  (length (scored_matches user_question_lower) <= 29)%nat.
Proof.
  pose proof (sublist_length _ _ (scored_matches_categories user_question_lower))
    as Hlen.
  rewrite !length_fmap, keyword_map_length in Hlen. exact Hlen.
Qed.

(** Every key whose keywords occur is collected by the loop. *)
Lemma scored_matches_complete (user_question_lower category : string) :
  category ∈ keyword_map.*1 ->
  (0 < count_present (keywords_of keyword_map category) user_question_lower)%nat ->
  (category,
   count_present (keywords_of keyword_map category) user_question_lower)
  ∈ scored_matches user_question_lower.
Proof.
  intros Hkey Hpos.
  apply list_elem_of_fmap in Hkey as (entry & -> & Hentry).
  pose proof keyword_map_lookup as Hlookup.
  rewrite Forall_forall in Hlookup. rewrite (Hlookup entry Hentry) in *.
  unfold scored_matches. apply list_elem_of_In, filter_In. split.
  - apply in_map_iff. exists entry. split; [reflexivity|].
    by apply list_elem_of_In.
  - by apply Nat.ltb_lt.
Qed.

Lemma ranked_categories_NoDup (user_question_lower : string) (top_n : Z) :
  NoDup (slice_to (sort_by_score_desc (scored_matches user_question_lower))
           top_n).*1.
Proof.
  assert (Hall : NoDup (sort_by_score_desc
                          (scored_matches user_question_lower)).*1).
  { rewrite sort_by_score_desc_perm.
    eapply sublist_NoDup; [apply keyword_map_NoDup|].
    apply scored_matches_categories. }
  unfold slice_to. destruct (top_n <? 0)%Z; rewrite fmap_take;
    (eapply sublist_NoDup; [exact Hall|apply sublist_take]).
Qed.

(** What the handler stores and shows: at most three distinct keys of
    [keyword_map]. *)
Lemma find_similar_categories_three (user_question : string) :
  (length (find_similar_categories user_question 3) <= 3)%nat
  /\ NoDup (find_similar_categories user_question 3)
  /\ find_similar_categories user_question 3 ⊆ keyword_map.*1.
Proof.
  unfold find_similar_categories. cbn zeta. split; [|split].
  - pose proof (length_slice_to
      (sort_by_score_desc (scored_matches (str_lower user_question))) 3) as Hlen.
    rewrite length_fmap. lia.
  - apply ranked_categories_NoDup.
  - destruct (ranked_matches_spec (str_lower user_question) 3) as [Hentries _].
    intros category Hin.
    apply list_elem_of_fmap in Hin as (m & -> & Hm).
    rewrite Forall_forall in Hentries.
    by destruct (Hentries m Hm) as (Hkey & _).
Qed.

Lemma find_similar_categories_unfold (user_question : string) (top_n : Z) :
  find_similar_categories user_question top_n
  = (slice_to (sort_by_score_desc (scored_matches (str_lower user_question)))
       top_n).*1.
Proof. reflexivity. Qed.

Lemma slice_to_nil {A : Type} (l : list A) (stop : Z) :
  (1 <= stop)%Z -> slice_to l stop = [] -> l = [].
Proof.
  intros Hstop. unfold slice_to.
  destruct (Z.ltb_spec stop 0) as [?|_]; [lia|].
  destruct (Z.to_nat stop) as [|n] eqn:Hn; [lia|].
  by destruct l.
Qed.

(** Every returned category is a key with a positive score. *)
Lemma find_similar_categories_scores (user_question : string) (top_n : Z) :
  Forall (fun category =>
            category ∈ keyword_map.*1
            /\ (1 <= category_score user_question category)%nat)
    (find_similar_categories user_question top_n).
Proof.
  rewrite find_similar_categories_unfold.
  destruct (ranked_matches_spec (str_lower user_question) top_n)
    as [Hentries _].
  rewrite Forall_fmap. eapply Forall_impl; [exact Hentries|].
  intros m (Hkey & Hscore & Hpos). split; [exact Hkey|].
  unfold category_score.
  change (1 <= count_present (keywords_of keyword_map m.1)
                 (str_lower user_question))%nat.
  rewrite <- Hscore. lia.
Qed.

(** An empty answer to a request for at least one suggestion: no keyword of
    any category occurs. *)
Lemma find_similar_categories_nil
    (user_question : string) (top_n : Z) (category : string) :
  (1 <= top_n)%Z ->
  find_similar_categories user_question top_n = [] ->
  category ∈ keyword_map.*1 ->
  category_score user_question category = 0%nat.
Proof.
  rewrite find_similar_categories_unfold. intros Htop Hnil Hkey.
  apply fmap_nil_inv, slice_to_nil in Hnil; [|exact Htop].
  destruct (decide (category_score user_question category = 0)%nat)
    as [Hzero|Hpos]; [exact Hzero|exfalso].
  pose proof (scored_matches_complete (str_lower user_question) category Hkey)
    as Hcomplete.
  unfold category_score in Hpos.
  rewrite <- sort_by_score_desc_perm, Hnil in Hcomplete.
  eapply elem_of_nil, Hcomplete. lia.
Qed.

(** X4. Truncation keeps the best matches: a key of [keyword_map] that is
    not returned scores no more than any returned category, and if the
    returned list is shorter than [top_n] it scores zero. *)
Theorem find_similar_categories_keeps_best
    (user_question : string) (top_n : Z) (category : string) :
  (0 <= top_n)%Z ->
  category ∈ keyword_map.*1 ->
  category ∉ find_similar_categories user_question top_n ->
  (forall returned,
     returned ∈ find_similar_categories user_question top_n ->
     (category_score user_question category
      <= category_score user_question returned)%nat)
  /\ ((Z.of_nat (length (find_similar_categories user_question top_n)) < top_n)%Z ->
      category_score user_question category = 0%nat).
Proof.
  intros Htop Hkey Hout.
  unfold find_similar_categories in *. cbn zeta in *.
  unfold slice_to in *.
  destruct (Z.ltb_spec top_n 0) as [?|_]; [lia|].
  set (sorted := sort_by_score_desc (scored_matches (str_lower user_question)))
    in *.
  set (n := Z.to_nat top_n) in *.
  destruct (decide (category_score user_question category = 0)%nat)
    as [Hzero|Hpos]; [rewrite Hzero; split; [intros; lia|done]|].
  assert (Hentry : (category, category_score user_question category) ∈ sorted).
  { unfold sorted. rewrite sort_by_score_desc_perm.
    apply scored_matches_complete; [done|]. unfold category_score in Hpos. lia. }
  rewrite <- (take_drop n sorted) in Hentry.
  apply elem_of_app in Hentry as [Htake|Hdrop].
  { exfalso. apply Hout.
    by apply (list_elem_of_fmap_2 fst) in Htake. }
  assert (Hsorted : StronglySorted (score_then written_before)
                      (take n sorted ++ drop n sorted)).
  { rewrite take_drop. apply sort_by_score_desc_sorted, scored_matches_in_order. }
  assert (Hentries : Forall (scored_entry (str_lower user_question))
                       (take n sorted)).
  { apply Forall_take. unfold sorted. rewrite sort_by_score_desc_perm.
    apply scored_matches_entries. }
  split.
  - intros returned Hret.
    apply list_elem_of_fmap in Hret as (m & -> & Hm).
    pose proof (StronglySorted_app_1_elem_of _ _ _ _ _ Hsorted Hm Hdrop) as Hord.
    apply score_then_le in Hord. cbn in Hord.
    rewrite Forall_forall in Hentries.
    destruct (Hentries m Hm) as (_ & Hscore & _).
    unfold category_score at 2. rewrite <- Hscore. exact Hord.
  - rewrite length_fmap, length_take. intros Hshort.
    rewrite drop_ge in Hdrop by lia. by apply elem_of_nil in Hdrop.
Qed.

(** X5. Asking for fewer suggestions gives a prefix of what a larger
    request gives. *)
Theorem find_similar_categories_prefix
    (user_question : string) (top_n top_m : Z) :
  (0 <= top_n <= top_m)%Z ->
  find_similar_categories user_question top_n
  = take (Z.to_nat top_n) (find_similar_categories user_question top_m).
Proof.
  intros Hle. unfold find_similar_categories, slice_to. cbn zeta.
  destruct (Z.ltb_spec top_n 0) as [?|_]; [lia|].
  destruct (Z.ltb_spec top_m 0) as [?|_]; [lia|].
  rewrite <- fmap_take, take_take. do 2 f_equal. lia.
Qed.

(** X6. With [top_n] at least the size of [keyword_map] nothing is cut:
    the list holds exactly the keys with a positive score, each once. *)
Theorem find_similar_categories_all
    (user_question : string) (top_n : Z) (category : string) :
  (29 <= top_n)%Z ->
  NoDup (find_similar_categories user_question top_n)
  /\ (category ∈ find_similar_categories user_question top_n
      <-> category ∈ keyword_map.*1
          /\ (1 <= category_score user_question category)%nat).
Proof.
  intros Htop. split.
  { unfold find_similar_categories. apply ranked_categories_NoDup. }
  unfold find_similar_categories, slice_to. cbn zeta.
  destruct (Z.ltb_spec top_n 0) as [?|_]; [lia|].
  rewrite take_ge.
  2:{ pose proof (scored_matches_length (str_lower user_question)) as Hlen.
      rewrite (Permutation_length
                 (sort_by_score_desc_perm
                    (scored_matches (str_lower user_question)))). lia. }
  rewrite sort_by_score_desc_perm. split.
  - intros Hin. apply list_elem_of_fmap in Hin as (m & -> & Hm).
    pose proof (scored_matches_entries (str_lower user_question)) as Hentries.
    rewrite Forall_forall in Hentries.
    destruct (Hentries m Hm) as (Hkey & Hscore & Hpos).
    split; [exact Hkey|]. unfold category_score. rewrite <- Hscore. lia.
  - intros [Hkey Hpos].
    apply (list_elem_of_fmap_2 fst
             (scored_matches (str_lower user_question))
             (category, category_score user_question category)).
    apply scored_matches_complete; [done|]. unfold category_score in Hpos. lia.
Qed.

(** ** Further properties of the stored suggestions *)

(** A turn keeps the stored list, or replaces it by a fresh non-empty
    ranking of the message. *)
Lemma handle_message_suggested_cases
    (ai : Gemini) (ud : user_data) (user_text : string) :
  suggested_categories (handle_message ai ud user_text).1
  = suggested_categories ud
  \/ (find_similar_categories user_text 3 <> []
      /\ suggested_categories (handle_message ai ud user_text).1
         = Some (find_similar_categories user_text 3)).
Proof.
  assert (Hanswer : forall start language,
    suggested_categories start = suggested_categories ud ->
    suggested_categories (answer_question ai start language user_text).1
    = suggested_categories ud
    \/ (find_similar_categories user_text 3 <> []
        /\ suggested_categories (answer_question ai start language user_text).1
           = Some (find_similar_categories user_text 3))).
  { intros start language Hstart.
    pose proof (answer_question_outcome ai start language user_text) as Hout.
    cbn zeta in Hout.
    destruct (RESPONSES !! _).
    - left. destruct Hout as (_ & _ & ->). exact Hstart.
    - destruct (find_similar_categories user_text 3) as [|c rest].
      + left. destruct Hout as (_ & _ & ->). exact Hstart.
      + right. split; [discriminate|]. by destruct Hout as (_ & _ & ->). }
  destruct (handle_message_cases ai ud user_text)
    as [(_ & k & _ & _ & ->)|[(_ & k & _ & _ & ->)|[(_ & _ & ->)|(_ & ->)]]].
  - left. apply remember_language_suggested.
  - left. apply remember_language_suggested.
  - apply Hanswer. apply remember_language_suggested.
  - apply Hanswer. apply remember_language_suggested.
Qed.

Lemma reachable_suggested_keys (ud : user_data) :
  reachable ud ->
  forall stored,
    suggested_categories ud = Some stored ->
    stored <> []
    /\ (length stored <= 3)%nat
    /\ NoDup stored
    /\ stored ⊆ keyword_map.*1.
Proof.
  induction 1 as [|ai ud user_text _ IH]; [discriminate|].
  intros stored Hstored.
  destruct (handle_message_suggested_cases ai ud user_text) as [Hkeep|[Hne Hnew]].
  - apply IH. by rewrite <- Hkeep.
  - rewrite Hnew in Hstored. injection Hstored as <-.
    split; [exact Hne|]. apply find_similar_categories_three.
Qed.

(** X7. Whatever list a reachable session stores, it is one the ranker
    produced for the handler: non-empty, at most three entries, no entry
    twice, and every entry a key of [keyword_map]. *)
Theorem reachable_suggestions_shape (ud : user_data) (stored : list string) :
  reachable ud ->
  suggested_categories ud = Some stored ->
  stored <> []
  /\ (length stored <= 3)%nat
  /\ NoDup stored
  /\ stored ⊆ keyword_map.*1.
Proof. intros Hreach. by apply reachable_suggested_keys. Qed.

(** X8. When the catalog has an entry for every key of [keyword_map], no
    turn of a reachable session is left without a reply. *)
Theorem complete_catalog_always_replies
    (ai : Gemini) (ud : user_data) (user_text : string) :
  keyword_map.*1 ⊆ CATEGORIES ->
  reachable ud ->
  (handle_message ai ud user_text).2 <> [].
Proof.
  intros Hcatalog Hreach Hnil.
  apply handle_message_silent in Hnil as (Hwait & k & _ & Hrange & Hnone).
  destruct (suggested_categories ud) as [stored|] eqn:Hstored.
  - destruct (reachable_suggested_keys ud Hreach stored Hstored)
      as (_ & _ & _ & Hkeys).
    unfold suggested in *. rewrite Hstored in *. cbn in Hrange, Hnone.
    pose proof (nth_in_range stored k Hrange) as Hlookup.
    apply list_elem_of_lookup_2, Hkeys, Hcatalog, CATEGORIES_spec in Hlookup.
    rewrite Hnone in Hlookup. by destruct Hlookup.
  - unfold suggested in Hrange. rewrite Hstored in Hrange. cbn in Hrange. lia.
Qed.

(** X9. In a reachable session that awaits a selection, a number outside
    the list leaves the whole dict as it was: the user can retry any number
    of times against the same list. *)
Theorem invalid_selection_keeps_session
    (ai : Gemini) (ud : user_data) (user_text : string) (k : Z) :
  reachable ud ->
  awaiting ud = true ->
  py_int user_text = Some k ->
  (k < 1 \/ Z.of_nat (length (suggested ud)) < k)%Z ->
  (handle_message ai ud user_text).1 = ud.
Proof.
  intros Hreach Hwait Hint Hrange.
  rewrite (handle_message_out_of_range ai ud user_text k Hwait Hint Hrange).
  apply remember_language_saved.
  destruct (reachable_language_cases ud Hreach) as [->|[->| ->]];
    [discriminate Hwait|done..].
Qed.

(** X10. In an idle session whose question the classifier does not resolve
    to a catalog entry, the default text is sent exactly when no keyword of
    any category occurs in the lowered question; otherwise a suggestion list
    is sent and stored. *)
Theorem default_response_iff_no_keyword
    (ai : Gemini) (ud : user_data) (user_text : string) :
  awaiting ud = false ->
  RESPONSES !! get_category_from_ai ai user_text = None ->
  let language := session_language ud user_text in
  let turn := handle_message ai ud user_text in
  ((forall category, category ∈ keyword_map.*1 ->
      category_score user_text category = 0%nat) ->
   turn.2 = [ default_response language ] /\ awaiting turn.1 = false)
  /\ ((exists category, category ∈ keyword_map.*1
         /\ (1 <= category_score user_text category)%nat) ->
      exists similar,
        similar <> []
        /\ turn.2 = [ suggestion_text similar language ]
        /\ awaiting turn.1 = true
        /\ suggested turn.1 = similar).
Proof.
  intros Hwait Hmiss language turn.
  assert (Hturn : turn = answer_question ai (remember_language ud language)
                           language user_text)
    by (by apply handle_message_idle).
  pose proof (answer_question_outcome ai (remember_language ud language)
                language user_text) as Hout.
  cbn zeta in Hout. rewrite Hmiss in Hout. rewrite <- Hturn in Hout.
  assert (Hflag : awaiting_confirmation (remember_language ud language)
                  = awaiting_confirmation ud)
    by apply remember_language_awaiting.
  split.
  - intros Hnone.
    destruct (find_similar_categories user_text 3) as [|c rest] eqn:Hsim.
    + destruct Hout as (-> & Hf & _). split; [reflexivity|].
      unfold awaiting in *. by rewrite Hf, Hflag.
    + exfalso.
      pose proof (find_similar_categories_scores user_text 3) as Hscores.
      rewrite Hsim in Hscores.
      apply Forall_cons in Hscores as [[Hkey Hpos] _].
      specialize (Hnone c Hkey). lia.
  - intros (category & Hkey & Hpos).
    destruct (find_similar_categories user_text 3) as [|c rest] eqn:Hsim.
    + pose proof (find_similar_categories_nil user_text 3 category
                    ltac:(lia) Hsim Hkey). lia.
    + exists (c :: rest). destruct Hout as (-> & Hf & Hl).
      split; [discriminate|]. split; [reflexivity|].
      unfold awaiting, suggested. by rewrite Hf, Hl.
Qed.

(** ** What a turn depends on *)

(** A turn only uses the model through the classification of the message
    and the translation of responses into the session language. *)
Lemma answer_question_ext
    (ai1 ai2 : Gemini) (ud : user_data) (language user_text : string) :
  get_category_from_ai ai1 user_text = get_category_from_ai ai2 user_text ->
  (forall response_text,
     translate_response ai1 response_text language
     = translate_response ai2 response_text language) ->
  answer_question ai1 ud language user_text
  = answer_question ai2 ud language user_text.
Proof.
  intros Hcat Htr. unfold answer_question. rewrite Hcat.
  destruct (RESPONSES !! _) as [response_text|]; [|reflexivity].
  by rewrite Htr.
Qed.

Lemma handle_message_ext
    (ai1 ai2 : Gemini) (ud : user_data) (user_text : string) :
  get_category_from_ai ai1 user_text = get_category_from_ai ai2 user_text ->
  (forall response_text,
     translate_response ai1 response_text (session_language ud user_text)
     = translate_response ai2 response_text (session_language ud user_text)) ->
  handle_message ai1 ud user_text = handle_message ai2 ud user_text.
Proof.
  intros Hcat Htr.
  destruct (handle_message_cases ai1 ud user_text)
    as [(Hwait & k & Hint & Hrange & ->)|[(Hwait & k & Hint & Hrange & ->)
       |[(Hwait & Hint & ->)|(Hwait & ->)]]].
  - rewrite (handle_message_in_range ai2 ud user_text k Hwait Hint Hrange).
    destruct (RESPONSES !! _) as [response_text|]; [|reflexivity].
    by rewrite Htr.
  - by rewrite (handle_message_out_of_range ai2 ud user_text k Hwait Hint Hrange).
  - rewrite (handle_message_rephrased ai2 ud user_text Hwait Hint).
    by apply answer_question_ext.
  - rewrite (handle_message_idle ai2 ud user_text Hwait).
    by apply answer_question_ext.
Qed.

(** X11. Without an API key the model is never consulted: the turn is the
    same whatever the model would have replied. *)
Theorem no_key_ignores_model
    (ai1 ai2 : Gemini) (ud : user_data) (user_text : string) :
  key_configured GEMINI_API_KEY = false ->
  handle_message ai1 ud user_text = handle_message ai2 ud user_text.
Proof.
  intros Hkey. apply handle_message_ext.
  - unfold get_category_from_ai. by rewrite Hkey.
  - intros response_text. unfold translate_response. rewrite Hkey. cbn.
    by destruct (String.eqb _ "en").
Qed.

(** X12. In a session whose language is ["en"] no translation is ever
    requested: two models that classify alike give the same turn, however
    they translate. *)
Theorem english_session_ignores_translation
    (ai1 ai2 : Gemini) (ud : user_data) (user_text : string) :
  session_language ud user_text = "en" ->
  (forall question, classify_reply ai1 question = classify_reply ai2 question) ->
  handle_message ai1 ud user_text = handle_message ai2 ud user_text.
Proof.
  intros Hen Hclassify. apply handle_message_ext.
  - unfold get_category_from_ai. by rewrite Hclassify.
  - intros response_text. rewrite Hen. reflexivity.
Qed.

(** X13. Suggest, then select.  If an idle session gets a question the
    classifier does not resolve and the ranker's [k]-th suggestion is
    [category], then the reply is the suggestion list, and a next message
    that parses as [k] is answered with the response of [category] in the
    language of the session, followed by the follow-up. *)
Theorem suggest_then_select
    (ai1 ai2 : Gemini) (ud : user_data) (question answer : string)
    (k : Z) (category response_text : string) :
  awaiting ud = false ->
  RESPONSES !! get_category_from_ai ai1 question = None ->
  (1 <= k)%Z ->
  find_similar_categories question 3 !! Z.to_nat (k - 1) = Some category ->
  py_int answer = Some k ->
  RESPONSES !! category = Some response_text ->
  let language := session_language ud question in
  let turn1 := handle_message ai1 ud question in
  let turn2 := handle_message ai2 turn1.1 answer in
  turn1.2 = [ suggestion_text (find_similar_categories question 3) language ]
  /\ turn2.2 = [ translate_response ai2 response_text language;
                 follow_up language ]
  /\ awaiting turn2.1 = false.
Proof.
  intros Hidle Hmiss Hk Hlookup Hint Hresp language turn1 turn2.
  assert (Hturn1 : turn1 = answer_question ai1 (remember_language ud language)
                             language question)
    by (by apply handle_message_idle).
  pose proof (answer_question_outcome ai1 (remember_language ud language)
                language question) as Hout.
  cbn zeta in Hout. rewrite Hmiss, <- Hturn1 in Hout.
  destruct (find_similar_categories question 3) as [|c rest] eqn:Hsim;
    [by rewrite lookup_nil in Hlookup|].
  destruct Hout as (Hsent & Hflag & Hstored).
  split; [exact Hsent|].
  assert (Hwait : awaiting turn1.1 = true)
    by (unfold awaiting; by rewrite Hflag).
  assert (Hlist : suggested turn1.1 = c :: rest)
    by (unfold suggested; by rewrite Hstored).
  assert (Hrange : (1 <= k <= Z.of_nat (length (suggested turn1.1)))%Z).
  { rewrite Hlist. apply lookup_lt_Some in Hlookup. lia. }
  assert (Hlang : session_language turn1.1 answer = language).
  { apply session_language_saved. apply handle_message_language. }
  unfold turn2.
  rewrite (handle_message_in_range ai2 turn1.1 answer k Hwait Hint Hrange).
  rewrite Hlist, Hlang.
  rewrite (nth_lookup_Some _ _ "" _ Hlookup), Hresp.
  split; reflexivity.
Qed.

(** ** Further properties of the classifier *)

(** X14. The answers of [get_category_from_ai]: a key of the catalog, or
    ["OTHER"], or, only when a key is configured and the model call raises,
    one of the five identifiers of the rule list. *)
Theorem get_category_from_ai_range (ai : Gemini) (user_question : string) :
  get_category_from_ai ai user_question ∈ CATEGORIES
  \/ get_category_from_ai ai user_question = "OTHER"
  \/ (key_configured GEMINI_API_KEY = true
      /\ classify_reply ai user_question = None
      /\ get_category_from_ai ai user_question ∈ fallback_identifiers).
Proof.
  destruct (key_configured GEMINI_API_KEY) eqn:Hkey.
  - destruct (classify_reply ai user_question) as [text|] eqn:Htext.
    + destruct (get_category_from_ai_validated ai user_question)
        as [Hin|Hother]; [right; by rewrite Htext|by left|right; by left].
    + unfold get_category_from_ai. rewrite Hkey, Htext. cbn.
      destruct (fallback_category_range user_question) as [Hin|Hother];
        [right; right; done|right; by left].
  - destruct (get_category_from_ai_validated ai user_question)
      as [Hin|Hother]; [by left|by left|right; by left].
Qed.

(** ** Display names *)

Lemma dict_get_present (d : list (string * string)) (key default : string) :
  key ∈ d.*1 -> (key, dict_get d key default) ∈ d.
Proof.
  induction d as [|[k v] rest IH]; simpl; [by intros ?%elem_of_nil|].
  destruct (String.eqb_spec k key) as [->|Hne]; [left|].
  intros [Heq|Hin]%elem_of_cons; [done|]. right. by apply IH.
Qed.

Lemma dict_get_missing (d : list (string * string)) (key default : string) :
  key ∉ d.*1 -> dict_get d key default = default.
Proof.
  induction d as [|[k v] rest IH]; simpl; [done|].
  intros Hout. apply not_elem_of_cons in Hout as [Hne Hout].
  destruct (String.eqb_spec k key) as [->|_]; [done|]. by apply IH.
Qed.

Lemma names_keys :
  names_en.*1 = keyword_map.*1 /\ names_es.*1 = keyword_map.*1.
Proof. split; reflexivity. Qed.

Lemma find_similar_categories_keys (user_question : string) (top_n : Z) :
  find_similar_categories user_question top_n ⊆ keyword_map.*1.
Proof.
  destruct (ranked_matches_spec (str_lower user_question) top_n)
    as [Hentries _].
  intros category Hin. unfold find_similar_categories in Hin. cbn zeta in Hin.
  apply list_elem_of_fmap in Hin as (m & -> & Hm).
  rewrite Forall_forall in Hentries.
  by destruct (Hentries m Hm) as (Hkey & _).
Qed.

(** X15. Every category the ranker can return has an entry in both name
    tables, so the suggestion list shows the name written in the table of
    the session language and never falls back to the raw identifier. *)
Theorem suggestions_have_display_names
    (user_question : string) (top_n : Z) (category language : string) :
  category ∈ find_similar_categories user_question top_n ->
  (category, get_category_display_name category language)
  ∈ (if String.eqb language "es" then names_es else names_en).
Proof.
  intros Hin. apply find_similar_categories_keys in Hin.
  destruct names_keys as [Hen Hes].
  unfold get_category_display_name.
  destruct (String.eqb language "es"); apply dict_get_present.
  - by rewrite Hes.
  - by rewrite Hen.
Qed.

(** X16. For an identifier that is not in the name tables, such as
    ["OTHER"], [get_category_display_name] returns the identifier itself,
    in every language. *)
Theorem display_name_of_unknown (category language : string) :
  category ∉ names_en.*1 ->
  get_category_display_name category language = category.
Proof.
  intros Hout. destruct names_keys as [Hen Hes].
  unfold get_category_display_name.
  destruct (String.eqb language "es"); apply dict_get_missing.
  - by rewrite Hes, <- Hen.
  - done.
Qed.

(** ** Texts built from parts *)

Lemma str_append_nil (text : string) : "" +:+ text = text.
Proof. reflexivity. Qed.

Lemma str_append_cons (x : ascii) (text rest : string) :
  String x text +:+ rest = String x (text +:+ rest).
Proof. reflexivity. Qed.

Lemma str_append_assoc (a b c : string) : (a +:+ b) +:+ c = a +:+ b +:+ c.
Proof.
  induction a as [|x a IH]; [reflexivity|].
  rewrite !str_append_cons. by f_equal.
Qed.

Lemma prefix_refl (text : string) : String.prefix text text = true.
Proof.
  induction text as [|x text IH]; simpl; [reflexivity|].
  by destruct (ascii_dec x x).
Qed.

Lemma prefix_app (needle rest : string) :
  String.prefix needle (needle +:+ rest) = true.
Proof.
  induction needle as [|x needle IH].
  - rewrite str_append_nil. by destruct rest.
  - rewrite str_append_cons. simpl. by destruct (ascii_dec x x).
Qed.

Lemma prefix_app_r (needle text rest : string) :
  String.prefix needle text = true ->
  String.prefix needle (text +:+ rest) = true.
Proof.
  revert text. induction needle as [|x needle IH]; intros text.
  - intros _. by destruct (text +:+ rest).
  - destruct text as [|y text]; [discriminate|].
    rewrite str_append_cons. simpl.
    destruct (ascii_dec x y); [apply IH|discriminate].
Qed.

Lemma str_contains_prefix (needle text : string) :
  String.prefix needle text = true -> str_contains needle text = true.
Proof. intros Hprefix. destruct text; simpl in *; by rewrite Hprefix. Qed.

Lemma str_contains_app_l (needle before text : string) :
  str_contains needle text = true ->
  str_contains needle (before +:+ text) = true.
Proof.
  intros Htext. induction before as [|x before IH]; [exact Htext|].
  rewrite str_append_cons. simpl. rewrite IH. apply orb_true_r.
Qed.

Lemma str_contains_app_r (needle text after : string) :
  str_contains needle text = true ->
  str_contains needle (text +:+ after) = true.
Proof.
  induction text as [|x text IH]; intros Htext.
  - apply str_contains_prefix. simpl in Htext.
    apply orb_true_iff in Htext as [Hprefix|?]; [|discriminate].
    by apply (prefix_app_r needle "" after).
  - simpl in Htext. apply orb_true_iff in Htext as [Hprefix|Hrest].
    + apply str_contains_prefix. by apply (prefix_app_r needle (String x text)).
    + rewrite str_append_cons. simpl. rewrite (IH Hrest). apply orb_true_r.
Qed.

Lemma str_contains_here (needle after : string) :
  str_contains needle (needle +:+ after) = true.
Proof. apply str_contains_prefix, prefix_app. Qed.

Lemma prefix_split (needle text : string) :
  String.prefix needle text = true -> exists after, text = needle +:+ after.
Proof.
  revert text. induction needle as [|x needle IH]; intros text Hprefix.
  - by exists text.
  - destruct text as [|y text]; [discriminate|]. simpl in Hprefix.
    destruct (ascii_dec x y) as [->|]; [|discriminate].
    destruct (IH text Hprefix) as [after ->]. by exists after.
Qed.

(** The substring test is the one of [needle in text]: it succeeds exactly
    when the text splits into a part before, the needle and a part after. *)
Lemma str_contains_spec (needle text : string) :
  str_contains needle text = true
  <-> exists before after, text = before +:+ needle +:+ after.
Proof.
  split.
  - induction text as [|x text IH]; intros Hin.
    + change (String.prefix needle "" || false = true) in Hin.
      apply orb_true_iff in Hin as [Hprefix|?]; [|discriminate].
      apply prefix_split in Hprefix as [after Htext]. by exists "", after.
    + change (String.prefix needle (String x text)
              || str_contains needle text = true) in Hin.
      apply orb_true_iff in Hin as [Hprefix|Hrest].
      * apply prefix_split in Hprefix as [after Htext]. by exists "", after.
      * destruct (IH Hrest) as (before & after & ->).
        by exists (String x before), after.
  - intros (before & after & ->).
    apply str_contains_app_l, str_contains_here.
Qed.

Lemma str_join_contains (sep part : string) (parts : list string) :
  part ∈ parts -> str_contains part (str_join sep parts) = true.
Proof.
  induction parts as [|first rest IH]; [by intros ?%elem_of_nil|].
  intros [->|Hrest]%elem_of_cons.
  - destruct rest as [|second rest]; simpl.
    + apply str_contains_prefix, prefix_refl.
    + apply str_contains_here.
  - destruct rest as [|second rest]; [by apply elem_of_nil in Hrest|].
    change (str_contains part
              (first +:+ sep +:+ str_join sep (second :: rest)) = true).
    do 2 apply str_contains_app_l. by apply IH.
Qed.

(** X17. The classification prompt carries the question as written and,
    for every category of the list it is built from, the line
    ["- CATEGORY: (hints)"]; a category without an entry in
    [category_examples] is listed with empty hints. *)
Theorem get_classification_prompt_contents
    (categories : list string) (user_question : string) :
  str_contains user_question
    (get_classification_prompt categories user_question) = true
  /\ (forall cat, cat ∈ categories ->
        str_contains (category_hint_line cat)
          (get_classification_prompt categories user_question) = true)
  /\ (forall cat, cat ∉ category_examples.*1 ->
        category_hint_line cat = "- " +:+ cat +:+ ": ()").
Proof.
  unfold get_classification_prompt. cbv zeta.
  split; [|split].
  - do 21 apply str_contains_app_l. apply str_contains_here.
  - intros cat Hcat.
    do 17 apply str_contains_app_l. apply str_contains_app_r.
    apply str_join_contains. by apply list_elem_of_fmap_2.
  - intros cat Hout. unfold category_hint_line.
    by rewrite dict_get_missing.
Qed.

Lemma suggestion_lines_contains
    (idx : nat) (similar : list string) (language : string)
    (i : nat) (category : string) :
  similar !! i = Some category ->
  str_contains
    (str_of_nat (idx + i) +:+ ". "
       +:+ get_category_display_name category language +:+ newline)
    (suggestion_lines idx similar language) = true.
Proof.
  revert idx i. induction similar as [|cat rest IH]; intros idx i Hi;
    [by rewrite lookup_nil in Hi|].
  destruct i as [|i].
  - injection Hi as ->. rewrite Nat.add_0_r.
    change (suggestion_lines idx (category :: rest) language)
      with (str_of_nat idx +:+ ". "
              +:+ get_category_display_name category language
              +:+ newline +:+ suggestion_lines (S idx) rest language).
    replace (str_of_nat idx +:+ ". "
               +:+ get_category_display_name category language
               +:+ newline +:+ suggestion_lines (S idx) rest language)
      with ((str_of_nat idx +:+ ". "
               +:+ get_category_display_name category language +:+ newline)
            +:+ suggestion_lines (S idx) rest language)
      by (by rewrite !str_append_assoc).
    apply str_contains_here.
  - change (suggestion_lines idx (cat :: rest) language)
      with (str_of_nat idx +:+ ". "
              +:+ get_category_display_name cat language
              +:+ newline +:+ suggestion_lines (S idx) rest language).
    do 4 apply str_contains_app_l.
    replace (idx + S i)%nat with (S idx + i)%nat by lia.
    by apply IH.
Qed.

(** X18. The suggestion text shows every suggestion on a line of its own
    under the number that selects it: the entry at index [i] of the list
    appears as ["{i+1}. {display name}"] followed by a newline. *)
Theorem suggestion_text_numbering
    (similar : list string) (language : string) (i : nat) (category : string) :
  similar !! i = Some category ->
  str_contains
    (str_of_nat (S i) +:+ ". "
       +:+ get_category_display_name category language +:+ newline)
    (suggestion_text similar language) = true.
Proof.
  intros Hi. unfold suggestion_text.
  apply str_contains_app_l, str_contains_app_r.
  by apply (suggestion_lines_contains 1).
Qed.

End Pipeline.

(** ** Concrete runs, with the builtins on ASCII text *)

#[local] Existing Instance ascii_builtins.

Example detect_language_english :
  detect_language "what is RealtyPlus" = "en".
Proof. vm_compute. reflexivity. Qed.

Example detect_language_spanish :
  detect_language "Hola, necesito ayuda" = "es".
Proof. vm_compute. reflexivity. Qed.

Example ascii_int_samples :
  ascii_int " 2 " = Some 2%Z /\ ascii_int "-3" = Some (-3)%Z
  /\ ascii_int "1_0" = Some 10%Z /\ ascii_int "1__0" = None
  /\ ascii_int "2.0" = None /\ ascii_int "" = None.
Proof. vm_compute. repeat split. Qed.

(** Two keywords of one category beat one keyword of an earlier one. *)
Example find_similar_categories_by_score :
  find_similar_categories "marketing, or help and support" 3
  = [ "SUPPORT_RECEIVED"; "MARKETING_ASSISTANCE" ].
Proof. vm_compute. reflexivity. Qed.

(** Equal scores: the order of [keyword_map], cut after [top_n]. *)
Example find_similar_categories_ties :
  find_similar_categories "tools, marketing and help" 2
  = [ "SUPPORT_RECEIVED"; "MARKETING_ASSISTANCE" ].
Proof. vm_compute. reflexivity. Qed.

Example find_similar_categories_no_overlap :
  find_similar_categories "xyzzy" 3 = [].
Proof. vm_compute. reflexivity. Qed.

(** The model is down, the rule list recognises the question and the
    catalog has the answer: it is sent as stored, with the follow-up. *)
Example handle_message_first_question :
  handle_message full_catalog (Some "key") failing_model fresh_user_data
    "what is RealtyPlus"
  = ({| user_language := Some "en";
        awaiting_confirmation := None;
        suggested_categories := None |},
     [ "Answer for WHAT_IS_REALTYPLUS"; follow_up "en" ]).
Proof. vm_compute. reflexivity. Qed.

Example handle_message_no_answer :
  handle_message support_catalog None failing_model fresh_user_data "xyzzy"
  = ({| user_language := Some "en";
        awaiting_confirmation := None;
        suggested_categories := None |},
     [ default_response "en" ]).
Proof. vm_compute. reflexivity. Qed.

Lemma three_suggestions_reachable :
  reachable support_catalog None three_suggestions.
Proof.
  change three_suggestions
    with (handle_message support_catalog None failing_model fresh_user_data
            "help with marketing tools").1.
  apply reachable_turn, reachable_fresh.
Qed.

Lemma after_selection_reachable :
  reachable support_catalog None after_selection.
Proof.
  change after_selection
    with (handle_message support_catalog None failing_model three_suggestions
            "1").1.
  apply reachable_turn, three_suggestions_reachable.
Qed.

Lemma no_catalog_has_no_category (category : string) :
  category ∉ CATEGORIES no_catalog.
Proof.
  rewrite CATEGORIES_spec. unfold no_catalog. rewrite lookup_empty.
  by intros [? ?].
Qed.

(** C1 fails as stated: with the catalog of a missing [data.json] the ranker
    still answers ["WHAT_IS_REALTYPLUS"]. *)
Lemma find_similar_categories_outside_catalog :
  ~ (forall category,
       category ∈ find_similar_categories "what is realtyplus" 3 ->
       category ∈ CATEGORIES no_catalog).
Proof.
  intros Hall.
  apply (no_catalog_has_no_category "WHAT_IS_REALTYPLUS"), Hall.
  vm_compute. constructor.
Qed.

Lemma full_catalog_has_keywords : keyword_map.*1 ⊆ CATEGORIES full_catalog.
Proof.
  intros category Hin. apply CATEGORIES_spec. revert category Hin.
  apply Forall_forall. compute_done.
Qed.

Lemma find_similar_categories_in_keyword_map_witness :
  "SUPPORT_RECEIVED" ∈ keyword_map.*1
  /\ "SUPPORT_RECEIVED" ∈ CATEGORIES full_catalog.
Proof.
  destruct (find_similar_categories_in_keyword_map full_catalog
              "help" 3 "SUPPORT_RECEIVED") as [Hkey Hcat].
  - vm_compute. constructor.
  - split; [exact Hkey|]. apply Hcat, full_catalog_has_keywords.
Defined.

(** C2 fails as stated: after the valid answer ["2"] the stored list is the
    one that was shown, not the empty list. *)
Lemma handle_message_selection_keeps_list :
  awaiting three_suggestions = true
  /\ py_int "2" = Some 2%Z
  /\ (1 <= 2 <= Z.of_nat (length (suggested three_suggestions)))%Z
  /\ suggested
       (handle_message support_catalog None failing_model three_suggestions "2").1
     <> [].
Proof. repeat split; try (vm_compute; congruence). Qed.

Lemma handle_message_valid_selection_witness :
  exists category,
    suggested three_suggestions !! Z.to_nat (1 - 1) = Some category
    /\ awaiting_confirmation
         (handle_message support_catalog None failing_model three_suggestions "1").1
       = Some false
    /\ awaiting
         (handle_message support_catalog None failing_model three_suggestions "1").1
       = false
    /\ suggested_categories
         (handle_message support_catalog None failing_model three_suggestions "1").1
       = suggested_categories three_suggestions
    /\ forall response_text,
         support_catalog !! category = Some response_text ->
         (handle_message support_catalog None failing_model three_suggestions "1").2
         = [ translate_response None failing_model response_text
               (session_language three_suggestions "1");
             follow_up (session_language three_suggestions "1") ].
Proof.
  apply (handle_message_valid_selection support_catalog None failing_model
           three_suggestions "1" 1).
  - reflexivity.
  - reflexivity.
  - simpl. lia.
Defined.

(** C3 fails as stated: [after_selection] is reachable, its list is not
    empty and its flag is false. *)
Lemma reachable_list_without_flag :
  ~ (forall ud,
       reachable support_catalog None ud ->
       (suggested ud <> [] <-> awaiting ud = true)).
Proof.
  intros Hall.
  destruct (Hall after_selection after_selection_reachable) as [Hflag _].
  discriminate Hflag. discriminate.
Qed.

Lemma reachable_flag_implies_list_witness :
  suggested three_suggestions <> [].
Proof.
  apply (reachable_flag_implies_list support_catalog None three_suggestions).
  - exact three_suggestions_reachable.
  - reflexivity.
Defined.

(** C4 at the failing input: an API key is configured, the model call
    raises, the catalog is the one of a missing [data.json]; the rule list
    answers ["WHAT_IS_REALTYPLUS"], which is neither in the catalog nor
    ["OTHER"]. *)
Lemma get_category_from_ai_fallback_outside_catalog :
  get_category_from_ai no_catalog (Some "key") failing_model "what is realtyplus"
  = "WHAT_IS_REALTYPLUS"
  /\ ("WHAT_IS_REALTYPLUS" ∉ CATEGORIES no_catalog)
  /\ "WHAT_IS_REALTYPLUS" <> "OTHER".
Proof.
  split; [vm_compute; reflexivity|].
  split; [apply no_catalog_has_no_category|discriminate].
Qed.

Lemma detect_language_spec_witness :
  detect_language "hola, necesito ayuda" = "es"
  /\ detect_language "where is the office" = "en"
  /\ detect_language "" = "en".
Proof.
  destruct (detect_language_spec "hola, necesito ayuda") as (_ & _ & Hes & _).
  destruct (detect_language_spec "where is the office")
    as (_ & _ & _ & Hen & _ & Hempty).
  split; [apply Hes; vm_compute; lia|].
  split; [apply Hen; vm_compute; lia|exact Hempty].
Defined.

Lemma translate_response_unchanged_witness :
  translate_response (Some "key") failing_model "We support you from day one." "es"
  = "We support you from day one.".
Proof.
  apply translate_response_unchanged.
  right. split; [reflexivity|]. right. reflexivity.
Defined.

Lemma find_similar_categories_ranking_witness :
  let result := find_similar_categories "help and support with marketing tools" 2 in
  Forall (fun c => (1 <= category_score "help and support with marketing tools" c)%nat)
    result
  /\ StronglySorted
       (fun a b =>
          (category_score "help and support with marketing tools" b
           <= category_score "help and support with marketing tools" a)%nat)
       result
  /\ StronglySorted (ranked_before "help and support with marketing tools") result
  /\ (Z.of_nat (length result) <= 2)%Z.
Proof.
  apply (find_similar_categories_ranking
           "help and support with marketing tools" 2).
  lia.
Defined.

Lemma handle_message_selection_without_response_witness :
  awaiting_confirmation
    (handle_message support_catalog None failing_model three_suggestions "2").1
  = Some false
  /\ (handle_message support_catalog None failing_model three_suggestions "2").2
     = [].
Proof.
  apply (handle_message_selection_without_response support_catalog None
           failing_model three_suggestions "2" 2).
  - reflexivity.
  - reflexivity.
  - simpl. lia.
  - vm_compute. reflexivity.
Defined.

Lemma handle_message_invalid_selection_witness :
  (handle_message support_catalog None failing_model three_suggestions "9").2
  = [ error_msg (session_language three_suggestions "9") ]
  /\ awaiting
       (handle_message support_catalog None failing_model three_suggestions "9").1
     = true
  /\ awaiting_confirmation
       (handle_message support_catalog None failing_model three_suggestions "9").1
     = awaiting_confirmation three_suggestions
  /\ suggested_categories
       (handle_message support_catalog None failing_model three_suggestions "9").1
     = suggested_categories three_suggestions.
Proof.
  apply (handle_message_invalid_selection support_catalog None failing_model
           three_suggestions "9" 9).
  - reflexivity.
  - reflexivity.
  - right. simpl. lia.
Defined.

Lemma handle_message_not_a_number_witness :
  handle_message support_catalog None failing_model three_suggestions
    "where are you"
  = handle_message support_catalog None failing_model
      (set_awaiting_confirmation three_suggestions false) "where are you".
Proof.
  apply (handle_message_not_a_number support_catalog None failing_model
           three_suggestions "where are you"); reflexivity.
Defined.

(** ** Concrete runs of the further properties *)

Lemma reachable_language_witness :
  (user_language three_suggestions = None
   /\ three_suggestions = fresh_user_data)
  \/ user_language three_suggestions = Some "es"
  \/ user_language three_suggestions = Some "en".
Proof.
  apply (reachable_language support_catalog None).
  exact three_suggestions_reachable.
Defined.

Lemma find_similar_categories_keeps_best_witness :
  (forall returned,
     returned ∈ find_similar_categories "tools, marketing and help" 2 ->
     (category_score "tools, marketing and help" "TECHNOLOGY_TOOLS_OFFERED"
      <= category_score "tools, marketing and help" returned)%nat)
  /\ ((Z.of_nat (length (find_similar_categories "tools, marketing and help" 2))
       < 2)%Z ->
      category_score "tools, marketing and help" "TECHNOLOGY_TOOLS_OFFERED"
      = 0%nat).
Proof.
  apply (find_similar_categories_keeps_best "tools, marketing and help" 2
           "TECHNOLOGY_TOOLS_OFFERED").
  - lia.
  - vm_compute. repeat constructor.
  - vm_compute. intros Hin. inversion Hin as [|? ? ? Hin']; subst.
    inversion Hin' as [|? ? ? Hin'']; subst. inversion Hin''.
Defined.

Lemma find_similar_categories_prefix_witness :
  find_similar_categories "tools, marketing and help" 2
  = take (Z.to_nat 2) (find_similar_categories "tools, marketing and help" 3).
Proof.
  apply (find_similar_categories_prefix "tools, marketing and help" 2 3). lia.
Defined.

Lemma find_similar_categories_all_witness :
  NoDup (find_similar_categories "tools, marketing and help" 29)
  /\ ("TECHNOLOGY_TOOLS_OFFERED"
      ∈ find_similar_categories "tools, marketing and help" 29
      <-> "TECHNOLOGY_TOOLS_OFFERED" ∈ keyword_map.*1
          /\ (1 <= category_score "tools, marketing and help"
                     "TECHNOLOGY_TOOLS_OFFERED")%nat).
Proof.
  apply (find_similar_categories_all "tools, marketing and help" 29
           "TECHNOLOGY_TOOLS_OFFERED").
  lia.
Defined.

Lemma reachable_suggestions_shape_witness :
  [ "SUPPORT_RECEIVED"; "MARKETING_ASSISTANCE"; "TECHNOLOGY_TOOLS_OFFERED" ]
  <> []
  /\ (length [ "SUPPORT_RECEIVED"; "MARKETING_ASSISTANCE";
               "TECHNOLOGY_TOOLS_OFFERED" ] <= 3)%nat
  /\ NoDup [ "SUPPORT_RECEIVED"; "MARKETING_ASSISTANCE";
             "TECHNOLOGY_TOOLS_OFFERED" ]
  /\ [ "SUPPORT_RECEIVED"; "MARKETING_ASSISTANCE";
       "TECHNOLOGY_TOOLS_OFFERED" ] ⊆ keyword_map.*1.
Proof.
  apply (reachable_suggestions_shape support_catalog None three_suggestions).
  - exact three_suggestions_reachable.
  - reflexivity.
Defined.

Lemma complete_catalog_always_replies_witness :
  (handle_message full_catalog None failing_model fresh_user_data "hello").2
  <> [].
Proof.
  apply (complete_catalog_always_replies full_catalog None).
  - exact full_catalog_has_keywords.
  - apply reachable_fresh.
Defined.

Lemma invalid_selection_keeps_session_witness :
  (handle_message support_catalog None failing_model three_suggestions "9").1
  = three_suggestions.
Proof.
  apply (invalid_selection_keeps_session support_catalog None failing_model
           three_suggestions "9" 9).
  - exact three_suggestions_reachable.
  - reflexivity.
  - reflexivity.
  - right. simpl. lia.
Defined.

Lemma default_response_iff_no_keyword_witness :
  ((forall category, category ∈ keyword_map.*1 ->
      category_score "xyzzy" category = 0%nat) ->
   (handle_message support_catalog None failing_model fresh_user_data "xyzzy").2
   = [ default_response (session_language fresh_user_data "xyzzy") ]
   /\ awaiting
        (handle_message support_catalog None failing_model fresh_user_data
           "xyzzy").1 = false)
  /\ ((exists category, category ∈ keyword_map.*1
         /\ (1 <= category_score "xyzzy" category)%nat) ->
      exists similar,
        similar <> []
        /\ (handle_message support_catalog None failing_model fresh_user_data
              "xyzzy").2
           = [ suggestion_text similar (session_language fresh_user_data "xyzzy") ]
        /\ awaiting
             (handle_message support_catalog None failing_model fresh_user_data
                "xyzzy").1 = true
        /\ suggested
             (handle_message support_catalog None failing_model fresh_user_data
                "xyzzy").1 = similar).
Proof.
  apply (default_response_iff_no_keyword support_catalog None failing_model
           fresh_user_data "xyzzy").
  - reflexivity.
  - vm_compute. reflexivity.
Defined.

Lemma no_key_ignores_model_witness :
  handle_message support_catalog None failing_model three_suggestions "1"
  = handle_message support_catalog None translating_model three_suggestions "1".
Proof.
  apply (no_key_ignores_model support_catalog None). reflexivity.
Defined.

Lemma english_session_ignores_translation_witness :
  handle_message support_catalog (Some "key") failing_model three_suggestions "1"
  = handle_message support_catalog (Some "key") translating_model
      three_suggestions "1".
Proof.
  apply (english_session_ignores_translation support_catalog (Some "key")).
  - reflexivity.
  - reflexivity.
Defined.

Lemma suggest_then_select_witness :
  (handle_message support_catalog None failing_model fresh_user_data "help").2
  = [ suggestion_text (find_similar_categories "help" 3)
        (session_language fresh_user_data "help") ]
  /\ (handle_message support_catalog None failing_model
        (handle_message support_catalog None failing_model fresh_user_data
           "help").1 "1").2
     = [ translate_response None failing_model "We support you from day one."
           (session_language fresh_user_data "help");
         follow_up (session_language fresh_user_data "help") ]
  /\ awaiting
       (handle_message support_catalog None failing_model
          (handle_message support_catalog None failing_model fresh_user_data
             "help").1 "1").1 = false.
Proof.
  apply (suggest_then_select support_catalog None failing_model failing_model
           fresh_user_data "help" "1" 1 "SUPPORT_RECEIVED").
  - reflexivity.
  - vm_compute. reflexivity.
  - lia.
  - vm_compute. reflexivity.
  - reflexivity.
  - vm_compute. reflexivity.
Defined.

Lemma suggestions_have_display_names_witness :
  ("SUPPORT_RECEIVED", get_category_display_name "SUPPORT_RECEIVED" "es")
  ∈ (if String.eqb "es" "es" then names_es else names_en).
Proof.
  apply (suggestions_have_display_names "help" 3 "SUPPORT_RECEIVED" "es").
  vm_compute. constructor.
Defined.

Lemma display_name_of_unknown_witness :
  get_category_display_name "OTHER" "es" = "OTHER".
Proof.
  apply display_name_of_unknown. compute_done.
Defined.

Lemma suggestion_text_numbering_witness :
  str_contains
    (str_of_nat 2 +:+ ". "
       +:+ get_category_display_name "MARKETING_ASSISTANCE" "en" +:+ newline)
    (suggestion_text
       [ "SUPPORT_RECEIVED"; "MARKETING_ASSISTANCE"; "TECHNOLOGY_TOOLS_OFFERED" ]
       "en") = true.
Proof.
  apply (suggestion_text_numbering
           [ "SUPPORT_RECEIVED"; "MARKETING_ASSISTANCE";
             "TECHNOLOGY_TOOLS_OFFERED" ] "en" 1 "MARKETING_ASSISTANCE").
  reflexivity.
Defined.
